(** * dragonboat, package [rsm]: managed state machines

    A shallow embedding of [internal/rsm/managedstatemachine.go] and
    [internal/rsm/sm.go], and the properties of the offload tracker, the
    session dedup check, the two state machine adapters and the managed
    state machine that are stated about them. *)

From Stdlib Require Import NArith ZArith String List Bool Lia.
From stdpp Require Import base option list gmap.
Import ListNotations.

Local Open Scope string_scope.
Local Open Scope list_scope.
Local Open Scope N_scope.

(** ** Go values *)

(** [[]byte]. *)
Definition bytes : Type := list Byte.byte.

(** [uint64] values are kept in [N]; the one place where the code does
    arithmetic on them, the size returned by [SaveSnapshot], wraps. *)
Definition wrap64 (n : N) : N := n mod 2 ^ 64.
Definition add64 (a b : N) : N := wrap64 (a + b).

(** Go's [error]: [nil] is [None].  [io.ErrShortWrite] and
    [ErrClusterClosed] are the two error values the package names; every
    other error comes from a collaborator. *)
Inductive err : Type :=
| io_ErrShortWrite
| ErrClusterClosed
| OtherError (msg : string).

Definition error : Type := option err.

(** [sm.Entry], as far as the package uses it. *)
Record Entry : Type := mkEntry {
  Index : N;
  Cmd : bytes;
  Result : N
}.

Definition withResult (r : N) (e : Entry) : Entry :=
  {| Index := Index e; Cmd := Cmd e; Result := r |}.

(** ** Calls on collaborators

    What a method does to the objects it holds is observed as the list of
    calls it makes on them, in order: on the adapter [ds.sm], on the lock
    [ds.mu], on the snapshot writer and on the snapshot reader. *)
Inductive call : Type :=
| MuLock | MuUnlock | MuRLock | MuRUnlock
| SmUpdate (entries : list Entry)
| SmLookup (query : bytes)
| SmPrepareSnapshot
| SmSaveSnapshot
| SmRecoverFromSnapshot
| SmClose
| WriterWrite (p : bytes)
| WriterSaveHeader (smsz sz : N)
| ReaderOpen (fp : string)
| ReaderGetHeader
| ReaderValidateHeader
| ReaderValidatePayload
| ReaderClose
| SessionsLoad.

Definition is_SmClose (c : call) : bool :=
  match c with SmClose => true | _ => false end.

Definition is_SmLookup (c : call) : bool :=
  match c with SmLookup _ => true | _ => false end.

Definition is_ReaderClose (c : call) : bool :=
  match c with ReaderClose => true | _ => false end.

(** ** Methods: state, calls made, and panics

    A method on a receiver of type [St] either returns a value or panics;
    in both cases it leaves a receiver behind (what it had stored before a
    panic stays stored) and a list of calls made. *)
Inductive outcome (A : Type) : Type :=
| Returned (a : A)
| Panicked (msg : string).
Arguments Returned {A} a.
Arguments Panicked {A} msg.

Definition M (St A : Type) : Type := St -> St * list call * outcome A.

Definition ret {St A} (a : A) : M St A :=
  fun s => (s, [], Returned a).

Definition bind {St A B} (m : M St A) (k : A -> M St B) : M St B :=
  fun s =>
    match m s with
    | (s1, t1, Returned a) =>
        match k a s1 with
        | (s2, t2, r) => (s2, t1 ++ t2, r)
        end
    | (s1, t1, Panicked msg) => (s1, t1, Panicked msg)
    end.

Notation "'let*' x ':=' m 'in' k" := (bind m (fun x => k))
  (at level 10, x name, m at level 100, k at level 200).

Definition panic {St A} (msg : string) : M St A :=
  fun s => (s, [], Panicked msg).

Definition get {St} : M St St :=
  fun s => (s, [], Returned s).

Definition modify {St} (f : St -> St) : M St unit :=
  fun s => (f s, [], Returned tt).

Definition emit {St} (c : call) : M St unit :=
  fun s => (s, [c], Returned tt).

(** A total operation of a collaborator, as a method. *)
Definition total {St A} (f : St -> St * A) : M St A :=
  fun s => match f s with (s', a) => (s', [], Returned a) end.

(** Run a method of a part of the receiver (an embedded struct, a field). *)
Definition zoom {St Part A} (proj : St -> Part) (upd : Part -> St -> St)
    (m : M Part A) : M St A :=
  fun s => match m (proj s) with (p, t, r) => (upd p s, t, r) end.

(** [defer d; body]: [d] runs when [body] returns and when it panics. *)
Definition defer {St A} (d : M St unit) (body : M St A) : M St A :=
  fun s =>
    match body s with
    | (s1, t1, r) =>
        match d s1 with
        | (s2, t2, Returned _) => (s2, t1 ++ t2, r)
        | (s2, t2, Panicked msg) => (s2, t1 ++ t2, Panicked msg)
        end
    end.

(** [defer func() { res = d() }(); body] in a function whose result [res]
    is named: when [body] returns, the deferred closure overwrites the
    result that [return] had stored; when [body] panics, the closure still
    runs and the panic goes on. *)
Definition defer_assign {St A} (d : M St A) (body : M St A) : M St A :=
  fun s =>
    match body s with
    | (s1, t1, Returned _) =>
        match d s1 with
        | (s2, t2, r) => (s2, t1 ++ t2, r)
        end
    | (s1, t1, Panicked msg) =>
        match d s1 with
        | (s2, t2, _) => (s2, t1 ++ t2, Panicked msg)
        end
    end.

Definition state_of {St A} (x : St * list call * outcome A) : St := fst (fst x).
Definition calls_of {St A} (x : St * list call * outcome A) : list call :=
  snd (fst x).
Definition outcome_of {St A} (x : St * list call * outcome A) : outcome A :=
  snd x.

Definition panicked {A} (r : outcome A) : bool :=
  match r with Panicked _ => true | Returned _ => false end.

(** ** Offload tracker *)

(** [type From uint64] and its four constants. *)
Definition From : Type := N.
Definition FromNodeHost : From := 0.
Definition FromStepWorker : From := 1.
Definition FromCommitWorker : From := 2.
Definition FromSnapshotWorker : From := 3.

Record OffloadedStatus : Type := mkOffloadedStatus {
  readyToDestroy : bool;
  destroyed : bool;
  offloadedFromNodeHost : bool;
  offloadedFromStepWorker : bool;
  offloadedFromCommitWorker : bool;
  offloadedFromSnapshotWorker : bool;
  loadedByStepWorker : bool;
  loadedByCommitWorker : bool;
  loadedBySnapshotWorker : bool
}.

(** The zero value, which [NewNativeStateMachine] starts from. *)
Definition zeroOffloadedStatus : OffloadedStatus :=
  mkOffloadedStatus false false false false false false false false false.

(** Assignments [o.field = b] through the pointer receiver. *)
Definition set_readyToDestroy (b : bool) (o : OffloadedStatus)
    : OffloadedStatus :=
  mkOffloadedStatus b (destroyed o) (offloadedFromNodeHost o)
    (offloadedFromStepWorker o) (offloadedFromCommitWorker o)
    (offloadedFromSnapshotWorker o) (loadedByStepWorker o)
    (loadedByCommitWorker o) (loadedBySnapshotWorker o).
Definition set_destroyed (b : bool) (o : OffloadedStatus)
    : OffloadedStatus :=
  mkOffloadedStatus (readyToDestroy o) b (offloadedFromNodeHost o)
    (offloadedFromStepWorker o) (offloadedFromCommitWorker o)
    (offloadedFromSnapshotWorker o) (loadedByStepWorker o)
    (loadedByCommitWorker o) (loadedBySnapshotWorker o).
Definition set_offloadedFromNodeHost (b : bool) (o : OffloadedStatus)
    : OffloadedStatus :=
  mkOffloadedStatus (readyToDestroy o) (destroyed o) b
    (offloadedFromStepWorker o) (offloadedFromCommitWorker o)
    (offloadedFromSnapshotWorker o) (loadedByStepWorker o)
    (loadedByCommitWorker o) (loadedBySnapshotWorker o).
Definition set_offloadedFromStepWorker (b : bool) (o : OffloadedStatus)
    : OffloadedStatus :=
  mkOffloadedStatus (readyToDestroy o) (destroyed o)
    (offloadedFromNodeHost o) b (offloadedFromCommitWorker o)
    (offloadedFromSnapshotWorker o) (loadedByStepWorker o)
    (loadedByCommitWorker o) (loadedBySnapshotWorker o).
Definition set_offloadedFromCommitWorker (b : bool) (o : OffloadedStatus)
    : OffloadedStatus :=
  mkOffloadedStatus (readyToDestroy o) (destroyed o)
    (offloadedFromNodeHost o) (offloadedFromStepWorker o) b
    (offloadedFromSnapshotWorker o) (loadedByStepWorker o)
    (loadedByCommitWorker o) (loadedBySnapshotWorker o).
Definition set_offloadedFromSnapshotWorker (b : bool) (o : OffloadedStatus)
    : OffloadedStatus :=
  mkOffloadedStatus (readyToDestroy o) (destroyed o)
    (offloadedFromNodeHost o) (offloadedFromStepWorker o)
    (offloadedFromCommitWorker o) b (loadedByStepWorker o)
    (loadedByCommitWorker o) (loadedBySnapshotWorker o).
Definition set_loadedByStepWorker (b : bool) (o : OffloadedStatus)
    : OffloadedStatus :=
  mkOffloadedStatus (readyToDestroy o) (destroyed o)
    (offloadedFromNodeHost o) (offloadedFromStepWorker o)
    (offloadedFromCommitWorker o) (offloadedFromSnapshotWorker o) b
    (loadedByCommitWorker o) (loadedBySnapshotWorker o).
Definition set_loadedByCommitWorker (b : bool) (o : OffloadedStatus)
    : OffloadedStatus :=
  mkOffloadedStatus (readyToDestroy o) (destroyed o)
    (offloadedFromNodeHost o) (offloadedFromStepWorker o)
    (offloadedFromCommitWorker o) (offloadedFromSnapshotWorker o)
    (loadedByStepWorker o) b (loadedBySnapshotWorker o).
Definition set_loadedBySnapshotWorker (b : bool) (o : OffloadedStatus)
    : OffloadedStatus :=
  mkOffloadedStatus (readyToDestroy o) (destroyed o)
    (offloadedFromNodeHost o) (offloadedFromStepWorker o)
    (offloadedFromCommitWorker o) (offloadedFromSnapshotWorker o)
    (loadedByStepWorker o) (loadedByCommitWorker o) b.

(** [ReadyToDestroy] and [Destroyed] read the flags. *)
Definition ReadyToDestroy : M OffloadedStatus bool :=
  let* o := get in ret (readyToDestroy o).

Definition Destroyed : M OffloadedStatus bool :=
  let* o := get in ret (destroyed o).

Definition SetDestroyed : M OffloadedStatus unit :=
  modify (set_destroyed true).

(** [plog.Panicf] logs its message and panics. *)
Definition SetLoaded (from : From) : M OffloadedStatus unit :=
  let* o := get in
  let* _ :=
    if offloadedFromNodeHost o then
      if (from =? FromStepWorker) || (from =? FromCommitWorker)
         || (from =? FromSnapshotWorker)
      then panic "loaded from %v after offloaded from nodehost"
      else ret tt
    else ret tt in
  if from =? FromNodeHost then
    panic "not suppose to get loaded notification from nodehost"
  else if from =? FromStepWorker then
    modify (set_loadedByStepWorker true)
  else if from =? FromCommitWorker then
    modify (set_loadedByCommitWorker true)
  else if from =? FromSnapshotWorker then
    modify (set_loadedBySnapshotWorker true)
  else panic "unknown offloadFrom value".

Definition SetOffloaded (from : From) : M OffloadedStatus unit :=
  let* _ :=
    if from =? FromNodeHost then
      modify (set_offloadedFromNodeHost true)
    else if from =? FromStepWorker then
      modify (set_offloadedFromStepWorker true)
    else if from =? FromCommitWorker then
      modify (set_offloadedFromCommitWorker true)
    else if from =? FromSnapshotWorker then
      modify (set_offloadedFromSnapshotWorker true)
    else panic "unknown offloadFrom value" in
  let* _ :=
    if from =? FromNodeHost then
      let* o := get in
      let* _ :=
        if negb (loadedByStepWorker o)
        then modify (set_offloadedFromStepWorker true) else ret tt in
      let* _ :=
        if negb (loadedByCommitWorker o)
        then modify (set_offloadedFromCommitWorker true) else ret tt in
      if negb (loadedBySnapshotWorker o)
      then modify (set_offloadedFromSnapshotWorker true) else ret tt
    else ret tt in
  let* o := get in
  if offloadedFromNodeHost o && offloadedFromCommitWorker o
     && offloadedFromSnapshotWorker o && offloadedFromStepWorker o
  then modify (set_readyToDestroy true)
  else ret tt.

(** A call on the tracker, and a sequence of calls made one after the
    other on the same tracker.  A call that panics leaves the tracker as
    the call had written it; the sequence goes on from there, so that the
    trackers seen by a caller that recovers are covered as well as those
    seen before the first panic. *)
Inductive status_call : Type :=
| CallSetLoaded (from : From)
| CallSetOffloaded (from : From)
| CallSetDestroyed.

Definition status_step (c : status_call) : M OffloadedStatus unit :=
  match c with
  | CallSetLoaded from => SetLoaded from
  | CallSetOffloaded from => SetOffloaded from
  | CallSetDestroyed => SetDestroyed
  end.

Fixpoint status_run (cs : list status_call) (o : OffloadedStatus)
    : OffloadedStatus :=
  match cs with
  | [] => o
  | c :: cs' => status_run cs' (state_of (status_step c o))
  end.

Definition allOffloaded (o : OffloadedStatus) : bool :=
  offloadedFromNodeHost o && offloadedFromStepWorker o
  && offloadedFromCommitWorker o && offloadedFromSnapshotWorker o.


(** ** Sessions *)

(** Modelled from the spec: the [Session] type and its methods
    [hasResponded], [getResponse] and [addResponse] are not among the
    sources.  The data model gives
    [{ clientID, respondedTo, results: map[SeriesID -> u64] }]; a series ID
    at or below [respondedTo] is acknowledged; recording a result for a
    series ID already present is fatal. *)
Record Session : Type := mkSession {
  ClientID : N;
  respondedTo : N;
  results : gmap N N
}.

Definition hasResponded (id : N) (s : Session) : bool :=
  id <=? respondedTo s.

(** [v, ok := m[id]]: the zero value when the key is absent. *)
Definition getResponse (id : N) (s : Session) : N * bool :=
  match results s !! id with
  | Some v => (v, true)
  | None => (0, false)
  end.

Definition addResponse (id result : N) : M Session unit :=
  let* s := get in
  match results s !! id with
  | Some _ => panic "adding a duplicated response"
  | None =>
      modify (fun s => mkSession (ClientID s) (respondedTo s)
                         (<[id := result]> (results s)))
  end.

(** ** Collaborators outside the two source files

    The snapshot writer and reader ([snapshotio.go]), the session store
    ([lrusession]) and the types of package [statemachine] are used by the
    code but declared elsewhere: they are parameters.  Their operations
    are typed by the calls the code makes on them; [ValidateHeader] and
    [ValidatePayload] return nothing, so a failed validation is a panic. *)
Class Collaborators : Type := {
  SnapshotWriter : Type;
  SnapshotReader : Type;
  SnapshotHeader : Type;
  lrusession : Type;
  SnapshotContext : Type;
  ISnapshotFileCollection : Type;
  SnapshotFile : Type;
  SnapshotHeaderSize : N;
  writer_Write : bytes -> SnapshotWriter -> SnapshotWriter * (Z * error);
  writer_SaveHeader : N -> N -> SnapshotWriter -> SnapshotWriter * error;
  NewSnapshotReader : string -> SnapshotReader * error;
  reader_GetHeader :
    SnapshotReader -> SnapshotReader * (SnapshotHeader * error);
  reader_ValidateHeader :
    SnapshotHeader -> SnapshotReader -> SnapshotReader * outcome unit;
  reader_ValidatePayload :
    SnapshotHeader -> SnapshotReader -> SnapshotReader * outcome unit;
  reader_Close : SnapshotReader -> SnapshotReader * error;
  lrusession_load :
    lrusession * SnapshotReader -> lrusession * SnapshotReader * error;
  lrusession_save :
    lrusession * SnapshotWriter -> lrusession * SnapshotWriter * (N * error)
}.

(** An operation of a collaborator that may panic. *)
Definition partial {St A} (f : St -> St * outcome A) : M St A :=
  fun s => match f s with (s', r) => (s', [], r) end.

(** The interfaces of package [statemachine] that the adapters wrap; user
    code is taken to return. *)
Module sm.
Module IStateMachine.
Class Methods `{Collaborators} (U : Type) : Type := {
  Update : bytes -> U -> U * N;
  Lookup : bytes -> U -> U * bytes;
  SaveSnapshot :
    ISnapshotFileCollection -> U * SnapshotWriter ->
    U * SnapshotWriter * (N * error);
  RecoverFromSnapshot :
    list SnapshotFile -> U * SnapshotReader -> U * SnapshotReader * error;
  Close : U -> U * unit;
  GetHash : U -> U * N
}.
End IStateMachine.
Module IConcurrentStateMachine.
Class Methods `{Collaborators} (U : Type) : Type := {
  Update : list Entry -> U -> U * list Entry;
  Lookup : bytes -> U -> U * (bytes * error);
  PrepareSnapshot : U -> U * (option SnapshotContext * error);
  SaveSnapshot :
    option SnapshotContext -> ISnapshotFileCollection ->
    U * SnapshotWriter -> U * SnapshotWriter * (N * error);
  RecoverFromSnapshot :
    list SnapshotFile -> U * SnapshotReader -> U * SnapshotReader * error;
  Close : U -> U * unit;
  GetHash : U -> U * N
}.
End IConcurrentStateMachine.
End sm.

(** ** Adapters ([sm.go]) *)

(** The interface [rsm.IStateMachine].  [Update], [PrepareSnapshot] and
    [SaveSnapshot] are methods that an adapter may refuse with a panic; the
    others only forward to user code. *)
Module IStateMachine.
Class Methods `{Collaborators} (S : Type) : Type := {
  Update : list Entry -> M S (list Entry);
  Lookup : bytes -> S -> S * (bytes * error);
  PrepareSnapshot : M S (option SnapshotContext * error);
  SaveSnapshot :
    option SnapshotContext -> ISnapshotFileCollection ->
    M (S * SnapshotWriter) (N * error);
  RecoverFromSnapshot :
    list SnapshotFile -> S * SnapshotReader -> S * SnapshotReader * error;
  Close : S -> S * unit;
  GetHash : S -> S * N;
  ConcurrentSnapshot : S -> bool
}.
End IStateMachine.

Module RegularStateMachine.
Section Regular.
Context `{Collaborators} {U : Type} `{!sm.IStateMachine.Methods U}.

(** [type RegularStateMachine struct { sm sm.IStateMachine }] *)
Record t : Type := mk { sm : U }.

Definition on_sm {A} (f : U -> U * A) : t -> t * A :=
  fun r => match f (sm r) with (u, a) => (mk u, a) end.

Definition on_sm_io {IO A} (f : U * IO -> U * IO * A) : t * IO -> t * IO * A :=
  fun x => match f (sm (fst x), snd x) with (u, io, a) => (mk u, io, a) end.

(** [entries[0]] is written in place and the slice itself is returned. *)
Definition Update (entries : list Entry) : M t (list Entry) :=
  if negb (length entries =? 1)%nat then panic "len(entries) != 1"
  else
    match entries with
    | e0 :: rest =>
        let* r := total (on_sm (sm.IStateMachine.Update (Cmd e0))) in
        ret (withResult r e0 :: rest)
    | [] => panic "index out of range [0] with length 0"
    end.

Definition Lookup (query : bytes) : t -> t * (bytes * error) :=
  fun r => match on_sm (sm.IStateMachine.Lookup query) r with
           | (r', v) => (r', (v, None))
           end.

Definition PrepareSnapshot : M t (option SnapshotContext * error) :=
  panic "PrepareSnapshot called on RegularStateMachine".

Definition SaveSnapshot (ctx : option SnapshotContext)
    (fc : ISnapshotFileCollection) : M (t * SnapshotWriter) (N * error) :=
  if bool_decide (ctx <> None) then panic "ctx is not nil"
  else total (on_sm_io (sm.IStateMachine.SaveSnapshot fc)).

Definition RecoverFromSnapshot (fs : list SnapshotFile)
    : t * SnapshotReader -> t * SnapshotReader * error :=
  on_sm_io (sm.IStateMachine.RecoverFromSnapshot fs).

Definition Close : t -> t * unit := on_sm sm.IStateMachine.Close.

Definition GetHash : t -> t * N := on_sm sm.IStateMachine.GetHash.

Definition ConcurrentSnapshot : t -> bool := fun _ => false.

#[global] Instance methods : IStateMachine.Methods t := {
  IStateMachine.Update := Update;
  IStateMachine.Lookup := Lookup;
  IStateMachine.PrepareSnapshot := PrepareSnapshot;
  IStateMachine.SaveSnapshot := SaveSnapshot;
  IStateMachine.RecoverFromSnapshot := RecoverFromSnapshot;
  IStateMachine.Close := Close;
  IStateMachine.GetHash := GetHash;
  IStateMachine.ConcurrentSnapshot := ConcurrentSnapshot
}.
End Regular.
Arguments t U : clear implicits.
Arguments mk {U} sm.
Arguments sm {U} _.
End RegularStateMachine.

Module ConcurrentStateMachine.
Section Concurrent.
Context `{Collaborators} {U : Type} `{!sm.IConcurrentStateMachine.Methods U}.

(** [type ConcurrentStateMachine struct { sm sm.IConcurrentStateMachine }] *)
Record t : Type := mk { sm : U }.

Definition on_sm {A} (f : U -> U * A) : t -> t * A :=
  fun r => match f (sm r) with (u, a) => (mk u, a) end.

Definition on_sm_io {IO A} (f : U * IO -> U * IO * A) : t * IO -> t * IO * A :=
  fun x => match f (sm (fst x), snd x) with (u, io, a) => (mk u, io, a) end.

Definition Update (entries : list Entry) : M t (list Entry) :=
  total (on_sm (sm.IConcurrentStateMachine.Update entries)).

Definition Lookup (query : bytes) : t -> t * (bytes * error) :=
  on_sm (sm.IConcurrentStateMachine.Lookup query).

Definition PrepareSnapshot : M t (option SnapshotContext * error) :=
  total (on_sm sm.IConcurrentStateMachine.PrepareSnapshot).

Definition SaveSnapshot (ctx : option SnapshotContext)
    (fc : ISnapshotFileCollection) : M (t * SnapshotWriter) (N * error) :=
  total (on_sm_io (sm.IConcurrentStateMachine.SaveSnapshot ctx fc)).

Definition RecoverFromSnapshot (fs : list SnapshotFile)
    : t * SnapshotReader -> t * SnapshotReader * error :=
  on_sm_io (sm.IConcurrentStateMachine.RecoverFromSnapshot fs).

Definition Close : t -> t * unit := on_sm sm.IConcurrentStateMachine.Close.

Definition GetHash : t -> t * N := on_sm sm.IConcurrentStateMachine.GetHash.

Definition ConcurrentSnapshot : t -> bool := fun _ => true.

#[global] Instance methods : IStateMachine.Methods t := {
  IStateMachine.Update := Update;
  IStateMachine.Lookup := Lookup;
  IStateMachine.PrepareSnapshot := PrepareSnapshot;
  IStateMachine.SaveSnapshot := SaveSnapshot;
  IStateMachine.RecoverFromSnapshot := RecoverFromSnapshot;
  IStateMachine.Close := Close;
  IStateMachine.GetHash := GetHash;
  IStateMachine.ConcurrentSnapshot := ConcurrentSnapshot
}.
End Concurrent.
Arguments t U : clear implicits.
Arguments mk {U} sm.
Arguments sm {U} _.
End ConcurrentStateMachine.

(** ** Session manager ([managedstatemachine.go]) *)

Module SessionManager.
Section Manager.
Context `{Collaborators}.

(** [type SessionManager struct { sessions *lrusession }] *)
Record t : Type := mk { sessions : lrusession }.

(** [UpdateRequired] reads the session it is given and nothing else. *)
Definition UpdateRequired (session : Session) (seriesID : N)
    : N * bool * bool :=
  if hasResponded seriesID session then (0, true, false)
  else
    match getResponse seriesID session with
    | (v, true) => (v, false, false)
    | (_, false) => (0, false, true)
    end.

Definition MustHaveClientSeries (seriesID : N) : M Session unit :=
  let* s := get in
  if snd (getResponse seriesID s)
  then panic "already has response in session"
  else ret tt.

Definition AddResponse (seriesID result : N) : M Session unit :=
  addResponse seriesID result.

Definition LoadSessions : M (t * SnapshotReader) error :=
  total (fun x =>
    match lrusession_load (sessions (fst x), snd x) with
    | (l, r, e) => (mk l, r, e)
    end).

Definition SaveSessions : M (t * SnapshotWriter) (N * error) :=
  total (fun x =>
    match lrusession_save (sessions (fst x), snd x) with
    | (l, w, r) => (mk l, w, r)
    end).
End Manager.
End SessionManager.

(** ** Managed state machine ([managedstatemachine.go]) *)

Module NativeStateMachine.
Section Native.
Context `{Collaborators} {S : Type} `{!IStateMachine.Methods S}.

(** [type NativeStateMachine struct]: the adapter [sm] and the two embedded
    structs, here under the field names [status] and [manager].  The lock
    [mu] shows as the calls made on it; the channel [done] is only handed
    to the adapter. *)
Record t : Type := mk {
  sm : S;
  status : OffloadedStatus;
  manager : SessionManager.t
}.

Definition set_sm (s : S) (ds : t) : t := mk s (status ds) (manager ds).
Definition set_status (o : OffloadedStatus) (ds : t) : t :=
  mk (sm ds) o (manager ds).
Definition set_manager (m : SessionManager.t) (ds : t) : t :=
  mk (sm ds) (status ds) m.

(** [NewNativeStateMachine]; [NewSessionManager] is given the session store
    it creates. *)
Definition NewNativeStateMachine (s : S) (sessions : lrusession) : t :=
  mk s zeroOffloadedStatus (SessionManager.mk sessions).

(** Methods promoted from the embedded [OffloadedStatus]. *)
Definition promoted {A} (m : M OffloadedStatus A) : M t A :=
  zoom status set_status m.

(** A call [ds.sm.f(...)]. *)
Definition on_sm {A} (c : call) (m : M S A) : M t A :=
  let* _ := emit c in zoom sm set_sm m.

Definition closeStateMachine : M t unit :=
  on_sm SmClose (total IStateMachine.Close).

Definition Offloaded (from : From) : M t unit :=
  let* _ := emit MuLock in
  defer (emit MuUnlock)
    (let* _ := promoted (SetOffloaded from) in
     let* ready := promoted ReadyToDestroy in
     if ready then
       let* gone := promoted Destroyed in
       if negb gone then
         let* _ := closeStateMachine in
         promoted SetDestroyed
       else ret tt
     else ret tt).

Definition Loaded (from : From) : M t unit :=
  let* _ := emit MuLock in
  defer (emit MuUnlock) (promoted (SetLoaded from)).

Definition ConcurrentSnapshot : M t bool :=
  let* ds := get in ret (IStateMachine.ConcurrentSnapshot (sm ds)).

(** The receiver together with what a pointer argument points to. *)
Definition on_ds {X A} (m : M t A) : M (t * X) A :=
  zoom fst (fun ds x => (ds, snd x)) m.

Definition on_arg {X A} (m : M X A) : M (t * X) A :=
  zoom snd (fun a x => (fst x, a)) m.

(** [session.f(...)] for [session *Session]: a nil pointer cannot be
    followed. *)
Definition on_session {A} (m : M Session A) : M (option Session) A :=
  fun p =>
    match p with
    | Some s => match m s with (s', tr, r) => (Some s', tr, r) end
    | None => (None, [], Panicked "nil pointer dereference")
    end.

(** [Update]: the state is the receiver and the session that [session]
    points to ([None] for nil). *)
Definition Update (seriesID index term : N) (data : bytes)
    : M (t * option Session) N :=
  let* st := get in
  let* _ :=
    if bool_decide (snd st <> None) then
      let* s := on_arg (on_session get) in
      if snd (getResponse seriesID s)
      then panic "already has response in session"
      else ret tt
    else ret tt in
  let entries := [mkEntry index data 0] in
  let* results :=
    on_ds (on_sm (SmUpdate entries) (IStateMachine.Update entries)) in
  if negb (length results =? 1)%nat then panic "len(results) != 1"
  else
    match results with
    | r0 :: _ =>
        let* _ :=
          if bool_decide (snd st <> None)
          then on_arg (on_session (addResponse seriesID (Result r0)))
          else ret tt in
        ret (Result r0)
    | [] => panic "index out of range [0] with length 0"
    end.

Definition BatchedUpdate (ents : list Entry) : M t (list Entry) :=
  let il := length ents in
  let* results := on_sm (SmUpdate ents) (IStateMachine.Update ents) in
  if negb (length results =? il)%nat then panic "unexpected result length"
  else ret results.

(** A nil [[]byte] is the empty list. *)
Definition Lookup (data : bytes) : M t (bytes * error) :=
  let* _ := emit MuRLock in
  let* gone := promoted Destroyed in
  if gone then
    let* _ := emit MuRUnlock in
    ret ([], Some ErrClusterClosed)
  else
    let* r := on_sm (SmLookup data) (total (IStateMachine.Lookup data)) in
    let* _ := emit MuRUnlock in
    ret r.

Definition GetHash : M t N :=
  zoom sm set_sm (total IStateMachine.GetHash).

Definition SaveSessions : M (t * SnapshotWriter) (N * error) :=
  let* r :=
    zoom (fun x => (manager (fst x), snd x))
         (fun p x => (set_manager (fst p) (fst x), snd p))
         SessionManager.SaveSessions in
  match r with
  | (smsz, Some e) => ret (0, Some e)
  | (smsz, None) => ret (smsz, None)
  end.

Definition PrepareSnapshot : M t (option SnapshotContext * error) :=
  let* concurrent := ConcurrentSnapshot in
  if negb concurrent
  then panic "state machine is not capable of concurrent snapshotting"
  else on_sm SmPrepareSnapshot IStateMachine.PrepareSnapshot.

(** A call on the adapter that is handed the writer or the reader. *)
Definition on_sm_io {IO A} (c : call) (m : M (S * IO) A) : M (t * IO) A :=
  let* _ := emit c in
  zoom (fun x => (sm (fst x), snd x))
       (fun p x => (set_sm (fst p) (fst x), snd p)) m.

(** [SaveSnapshot]: the state is the receiver and the writer. *)
Definition SaveSnapshot (ssctx : option SnapshotContext) (session : bytes)
    (collection : ISnapshotFileCollection)
    : M (t * SnapshotWriter) (N * error) :=
  let* _ := emit (WriterWrite session) in
  let* w := on_arg (total (writer_Write session)) in
  match w with
  | (n, Some e) => ret (0, Some e)
  | (n, None) =>
      if negb (n =? Z.of_nat (length session))%Z
      then ret (0, Some io_ErrShortWrite)
      else
        let smsz := N.of_nat (length session) in
        let* a := on_sm_io SmSaveSnapshot
                    (IStateMachine.SaveSnapshot ssctx collection) in
        match a with
        | (sz, Some e) => ret (0, Some e)
        | (sz, None) =>
            let* _ := emit (WriterSaveHeader smsz sz) in
            let* e := on_arg (total (writer_SaveHeader smsz sz)) in
            match e with
            | Some e => ret (0, Some e)
            | None => ret (add64 (add64 sz smsz) SnapshotHeaderSize, None)
            end
        end
  end.

(** A local variable of a method: it lives for the call. *)
Definition with_local {St X A} (x : X) (m : M (St * X) A) : M St A :=
  fun s => match m (s, x) with (sx, tr, r) => (fst sx, tr, r) end.

(** [RecoverFromSnapshot]: [err] is the named result, which the deferred
    closure assigns; [plog.Errorf] only logs. *)
Definition RecoverFromSnapshot (fp : string) (files : list SnapshotFile)
    : M t error :=
  let* _ := emit (ReaderOpen fp) in
  match NewSnapshotReader fp with
  | (reader, Some e) => ret (Some e)
  | (reader, None) =>
      with_local reader
        (defer_assign
           (let* _ := emit ReaderClose in on_arg (total reader_Close))
           (let* _ := emit ReaderGetHeader in
            let* h := on_arg (total reader_GetHeader) in
            match h with
            | (header, Some e) => ret (Some e)
            | (header, None) =>
                let* _ := emit ReaderValidateHeader in
                let* _ := on_arg (partial (reader_ValidateHeader header)) in
                let* _ := emit SessionsLoad in
                let* e :=
                  zoom (fun x => (manager (fst x), snd x))
                       (fun p x => (set_manager (fst p) (fst x), snd p))
                       SessionManager.LoadSessions in
                match e with
                | Some e => ret (Some e)
                | None =>
                    let* e :=
                      on_sm_io SmRecoverFromSnapshot
                        (total (IStateMachine.RecoverFromSnapshot files)) in
                    match e with
                    | Some e => ret (Some e)
                    | None =>
                        let* _ := emit ReaderValidatePayload in
                        let* _ :=
                          on_arg (partial (reader_ValidatePayload header)) in
                        ret None
                    end
                end
            end))
  end.
End Native.
Arguments t {_} S.
Arguments mk {_ S} sm status manager.
End NativeStateMachine.

(** ** Sequences of lifecycle calls on a managed state machine *)

Section Lifecycle.
Context `{Collaborators} {S : Type} `{!IStateMachine.Methods S}.

Inductive native_call : Type :=
| CallLoaded (from : From)
| CallOffloaded (from : From).

Definition native_step (c : native_call) : M (NativeStateMachine.t S) unit :=
  match c with
  | CallLoaded from => NativeStateMachine.Loaded from
  | CallOffloaded from => NativeStateMachine.Offloaded from
  end.

(** The managed state machine after the calls, and all the calls they made
    on collaborators; as for [status_run], a panicking call leaves what it
    had written. *)
Fixpoint native_run (cs : list native_call) (ds : NativeStateMachine.t S)
    : NativeStateMachine.t S * list call :=
  match cs with
  | [] => (ds, [])
  | c :: cs' =>
      let r := native_step c ds in
      match native_run cs' (state_of r) with
      | (ds', tr) => (ds', calls_of r ++ tr)
      end
  end.
End Lifecycle.

Definition count_calls (p : call -> bool) (tr : list call) : nat :=
  length (List.filter p tr).

(** The offloaded-from flag of a component. *)
Definition offloadedFrom (from : From) (o : OffloadedStatus) : bool :=
  if from =? FromNodeHost then offloadedFromNodeHost o
  else if from =? FromStepWorker then offloadedFromStepWorker o
  else if from =? FromCommitWorker then offloadedFromCommitWorker o
  else if from =? FromSnapshotWorker then offloadedFromSnapshotWorker o
  else false.

(** [o'] has every flag set that [o] has. *)
Definition flags_le (o o' : OffloadedStatus) : bool :=
  implb (readyToDestroy o) (readyToDestroy o')
  && implb (destroyed o) (destroyed o')
  && implb (offloadedFromNodeHost o) (offloadedFromNodeHost o')
  && implb (offloadedFromStepWorker o) (offloadedFromStepWorker o')
  && implb (offloadedFromCommitWorker o) (offloadedFromCommitWorker o')
  && implb (offloadedFromSnapshotWorker o) (offloadedFromSnapshotWorker o')
  && implb (loadedByStepWorker o) (loadedByStepWorker o')
  && implb (loadedByCommitWorker o) (loadedByCommitWorker o')
  && implb (loadedBySnapshotWorker o) (loadedBySnapshotWorker o').

(** The nine flags. *)
Definition flags : list (OffloadedStatus -> bool) :=
  [readyToDestroy; destroyed; offloadedFromNodeHost; offloadedFromStepWorker;
   offloadedFromCommitWorker; offloadedFromSnapshotWorker;
   loadedByStepWorker; loadedByCommitWorker; loadedBySnapshotWorker].

(** Every worker has either reported loading or is marked offloaded. *)
Definition accounted (o : OffloadedStatus) : bool :=
  (loadedByStepWorker o || offloadedFromStepWorker o)
  && (loadedByCommitWorker o || offloadedFromCommitWorker o)
  && (loadedBySnapshotWorker o || offloadedFromSnapshotWorker o).

(** What holds of a tracker that started from the zero value. *)
Definition tracker_inv (o : OffloadedStatus) : bool :=
  Bool.eqb (readyToDestroy o) (allOffloaded o)
  && implb (offloadedFromNodeHost o) (accounted o).

(** What holds of any tracker once [SetOffloaded from] has returned. *)
Definition settled (from : From) (o : OffloadedStatus) : bool :=
  offloadedFrom from o
  && implb (allOffloaded o) (readyToDestroy o)
  && implb (from =? FromNodeHost) (accounted o).

Section LifecycleInvariant.
Context `{Collaborators} {S : Type} `{!IStateMachine.Methods S}.

(** What holds of a managed state machine made by
    [NewNativeStateMachine]. *)
Definition native_inv (ds : NativeStateMachine.t S) : bool :=
  tracker_inv (NativeStateMachine.status ds)
  && Bool.eqb (destroyed (NativeStateMachine.status ds))
       (readyToDestroy (NativeStateMachine.status ds)).

Definition closes_expected (before after : NativeStateMachine.t S) : nat :=
  if readyToDestroy (NativeStateMachine.status after)
     && negb (readyToDestroy (NativeStateMachine.status before))
  then 1%nat else 0%nat.
End LifecycleInvariant.

(** The session after [addResponse] stored [result] under [id]. *)
Definition recorded (id result : N) (s : Session) : Session :=
  mkSession (ClientID s) (respondedTo s) (<[id := result]> (results s)).

(** The session as [Update] leaves it when the adapter gave [result]. *)
Definition after_update (seriesID result : N) (session : option Session)
    : option Session :=
  match session with
  | Some s => Some (recorded seriesID result s)
  | None => None
  end.

(** No result is retained for [seriesID]; a nil session retains nothing. *)
Definition not_retained (seriesID : N) (session : option Session) : Prop :=
  match session with
  | Some s => results s !! seriesID = None
  | None => True
  end.

(** ** Mock collaborators, for running the code on concrete inputs *)

Module Mock.

(** A writer with room for [room] more bytes: [Write] stores what fits and
    reports how much that was. *)
Record writer : Type := mkWriter {
  written : bytes;
  header : option (N * N);
  room : nat
}.

Definition Write (p : bytes) (w : writer) : writer * (Z * error) :=
  let n := Nat.min (length p) (room w) in
  (mkWriter (written w ++ firstn n p) (header w) (room w - n)%nat,
   (Z.of_nat n, None)).

Definition SaveHeader (smsz sz : N) (w : writer) : writer * error :=
  (mkWriter (written w) (Some (smsz, sz)) (room w), None).

(** A reader that fails where it is told to. *)
Record reader : Type := mkReader {
  failHeader : bool;
  failSessions : bool;
  failPayload : bool;
  closed : bool
}.

Definition Open (fp : string) : reader * error :=
  if String.eqb fp "" then
    (mkReader false false false false, Some (OtherError "no such file"))
  else
    (mkReader (String.eqb fp "bad-header") (String.eqb fp "bad-sessions")
       (String.eqb fp "bad-payload") false, None).

Definition GetHeader (r : reader) : reader * (unit * error) :=
  (r, (tt, if failHeader r then Some (OtherError "corrupted header")
           else None)).

Definition Validate (_ : unit) (r : reader) : reader * outcome unit :=
  (r, Returned tt).

Definition CloseReader (r : reader) : reader * error :=
  (mkReader (failHeader r) (failSessions r) (failPayload r) true, None).

Definition load (x : unit * reader) : unit * reader * error :=
  (x, if failSessions (snd x) then Some (OtherError "corrupted sessions")
      else None).

Definition save (x : unit * writer) : unit * writer * (N * error) :=
  (x, (0, None)).

#[global] Instance collaborators : Collaborators := {
  SnapshotWriter := writer;
  SnapshotReader := reader;
  SnapshotHeader := unit;
  lrusession := unit;
  SnapshotContext := unit;
  ISnapshotFileCollection := unit;
  SnapshotFile := unit;
  SnapshotHeaderSize := 1024;
  writer_Write := Write;
  writer_SaveHeader := SaveHeader;
  NewSnapshotReader := Open;
  reader_GetHeader := GetHeader;
  reader_ValidateHeader := Validate;
  reader_ValidatePayload := Validate;
  reader_Close := CloseReader;
  lrusession_load := load;
  lrusession_save := save
}.

(** A user state machine that counts the bytes of the commands applied;
    its snapshot is one byte. *)
Definition counter : Type := N.

#[global] Instance counter_methods : sm.IStateMachine.Methods counter := {
  sm.IStateMachine.Update := fun cmd u =>
    (u + N.of_nat (length cmd), u + N.of_nat (length cmd));
  sm.IStateMachine.Lookup := fun _ u => (u, []);
  sm.IStateMachine.SaveSnapshot := fun _ x =>
    (fst x, fst (Write [Byte.x2a] (snd x)), (1, None));
  sm.IStateMachine.RecoverFromSnapshot := fun _ x =>
    (x, if failPayload (snd x) then Some (OtherError "corrupted payload")
        else None);
  sm.IStateMachine.Close := fun u => (u, tt);
  sm.IStateMachine.GetHash := fun u => (u, u)
}.

(** A user state machine that answers what it is told to answer. *)
Record scripted : Type := mkScripted {
  updateReply : list Entry;
  saveReply : N * error
}.

#[global] Instance scripted_methods
    : sm.IConcurrentStateMachine.Methods scripted := {
  sm.IConcurrentStateMachine.Update := fun _ u => (u, updateReply u);
  sm.IConcurrentStateMachine.Lookup := fun _ u => (u, ([], None));
  sm.IConcurrentStateMachine.PrepareSnapshot := fun u => (u, (Some tt, None));
  sm.IConcurrentStateMachine.SaveSnapshot := fun _ _ x => (x, saveReply (fst x));
  sm.IConcurrentStateMachine.RecoverFromSnapshot := fun _ x => (x, None);
  sm.IConcurrentStateMachine.Close := fun u => (u, tt);
  sm.IConcurrentStateMachine.GetHash := fun u => (u, 0)
}.

Definition regular (u : counter) : NativeStateMachine.t (RegularStateMachine.t counter) :=
  NativeStateMachine.NewNativeStateMachine (RegularStateMachine.mk u) tt.

Definition concurrent (u : scripted)
    : NativeStateMachine.t (ConcurrentStateMachine.t scripted) :=
  NativeStateMachine.NewNativeStateMachine (ConcurrentStateMachine.mk u) tt.

Definition emptyWriter (room : nat) : writer := mkWriter [] None room.

End Mock.

(** ** Workers and their flags *)

Definition is_worker (from : From) : bool :=
  (from =? FromStepWorker) || (from =? FromCommitWorker)
  || (from =? FromSnapshotWorker).

(** The loaded-by flag of a component; node-host has none. *)
Definition loadedBy (from : From) (o : OffloadedStatus) : bool :=
  if from =? FromStepWorker then loadedByStepWorker o
  else if from =? FromCommitWorker then loadedByCommitWorker o
  else if from =? FromSnapshotWorker then loadedBySnapshotWorker o
  else false.

(** [c] is the call [SetLoaded(w)]. *)
Definition is_load_of (w : From) (c : status_call) : bool :=
  match c with
  | CallSetLoaded from => from =? w
  | _ => false
  end.

(** Component [w] has reported loading in the calls [cs] made on the
    tracker [o]: one of them is a [SetLoaded(w)] that returned. *)
Fixpoint reported_loading (w : From) (cs : list status_call)
    (o : OffloadedStatus) : bool :=
  match cs with
  | [] => false
  | c :: cs' =>
      (is_load_of w c && negb (panicked (outcome_of (status_step c o))))
      || reported_loading w cs' (state_of (status_step c o))
  end.

(** The tracker calls that a lifecycle call makes on a given managed state
    machine: [Offloaded] also calls [SetDestroyed] when it finds the
    tracker ready and not yet destroyed. *)
Definition tracker_calls (c : native_call) (o : OffloadedStatus)
    : list status_call :=
  match c with
  | CallLoaded from => [CallSetLoaded from]
  | CallOffloaded from =>
      let r := SetOffloaded from o in
      if negb (panicked (outcome_of r)) && readyToDestroy (state_of r)
         && negb (destroyed (state_of r))
      then [CallSetOffloaded from; CallSetDestroyed]
      else [CallSetOffloaded from]
  end.

(** The tracker calls made by a sequence of lifecycle calls on a managed
    state machine whose tracker is [o]. *)
Fixpoint native_tracker_calls (cs : list native_call) (o : OffloadedStatus)
    : list status_call :=
  match cs with
  | [] => []
  | c :: cs' =>
      tracker_calls c o
        ++ native_tracker_calls cs' (status_run (tracker_calls c o) o)
  end.

(** ** Client registration ([managedstatemachine.go])

    The operations of the session store [lrusession], [newSession] and
    [LRUMaxSessionCount] are declared outside the two source files: they
    are parameters, typed by the calls made on them.  [getSession] returns
    a pointer, [None] for nil, and a flag. *)
Class SessionStore `{Collaborators} : Type := {
  LRUMaxSessionCount : N;
  newLRUSession : N -> lrusession;
  newSession : N -> Session;
  lrusession_getSession :
    N -> lrusession -> lrusession * (option Session * bool);
  lrusession_addSession : N -> Session -> lrusession -> lrusession;
  lrusession_delSession : N -> lrusession -> lrusession;
  lrusession_getHash : lrusession -> lrusession * N
}.

Section Clients.
Context `{Collaborators} `{!SessionStore}.

Definition on_sessions {A} (f : lrusession -> lrusession * A)
    : M SessionManager.t A :=
  total (fun ds =>
    match f (SessionManager.sessions ds) with
    | (l, a) => (SessionManager.mk l, a)
    end).

Definition NewSessionManager : SessionManager.t :=
  SessionManager.mk (newLRUSession LRUMaxSessionCount).

Definition GetSessionHash : M SessionManager.t N :=
  on_sessions lrusession_getHash.

(** [es.ClientID != RaftClientID(clientID)] with [plog.Panicf]; [es] is
    followed, so a nil [es] with a true flag is a run-time panic. *)
Definition checkClientID (es : option Session) (clientID : N)
    : M SessionManager.t unit :=
  match es with
  | Some s =>
      if negb (ClientID s =? clientID)
      then panic "returned an expected session, got id %d, want %d"
      else ret tt
  | None => panic "nil pointer dereference"
  end.

(** [plog.Warningf] only logs. *)
Definition RegisterClientID (clientID : N) : M SessionManager.t N :=
  let* r := on_sessions (lrusession_getSession clientID) in
  if snd r then
    let* _ := checkClientID (fst r) clientID in
    ret 0
  else
    let s := newSession clientID in
    let* _ := on_sessions (fun l => (lrusession_addSession clientID s l, tt)) in
    ret clientID.

Definition UnregisterClientID (clientID : N) : M SessionManager.t N :=
  let* r := on_sessions (lrusession_getSession clientID) in
  if negb (snd r) then ret 0
  else
    let* _ := checkClientID (fst r) clientID in
    let* _ := on_sessions (fun l => (lrusession_delSession clientID l, tt)) in
    ret clientID.

Definition ClientRegistered (clientID : N)
    : M SessionManager.t (option Session * bool) :=
  let* r := on_sessions (lrusession_getSession clientID) in
  let* _ := if snd r then checkClientID (fst r) clientID else ret tt in
  ret r.
End Clients.

(** A second set of collaborators for running the code: a session store
    that is a finite map from client IDs to sessions, with no bound on its
    size; a writer that fails once it has no room left; a reader whose
    validations panic and whose [Close] fails where it is told to. *)
Module MockStore.

Definition Write (p : bytes) (w : Mock.writer) : Mock.writer * (Z * error) :=
  if (Mock.room w =? 0)%nat
  then (w, (0%Z, Some (OtherError "no space left on device")))
  else Mock.Write p w.

Definition SaveHeader (smsz sz : N) (w : Mock.writer) : Mock.writer * error :=
  if (Mock.room w =? 0)%nat
  then (w, Some (OtherError "no space left on device"))
  else Mock.SaveHeader smsz sz w.

Record reader : Type := mkReader {
  invalidHeader : bool;
  invalidPayload : bool;
  closeFails : bool;
  closed : bool
}.

Definition Open (fp : string) : reader * error :=
  (mkReader (String.eqb fp "invalid-header") (String.eqb fp "invalid-payload")
     (String.eqb fp "close-fails") false, None).

Definition GetHeader (r : reader) : reader * (unit * error) :=
  (r, (tt, None)).

Definition ValidateHeader (_ : unit) (r : reader) : reader * outcome unit :=
  (r, if invalidHeader r then Panicked "invalid snapshot header"
      else Returned tt).

Definition ValidatePayload (_ : unit) (r : reader) : reader * outcome unit :=
  (r, if invalidPayload r then Panicked "corrupted snapshot payload"
      else Returned tt).

Definition CloseReader (r : reader) : reader * error :=
  (mkReader (invalidHeader r) (invalidPayload r) (closeFails r) true,
   if closeFails r then Some (OtherError "close failed") else None).

Definition collaborators : Collaborators := {|
  SnapshotWriter := Mock.writer;
  SnapshotReader := reader;
  SnapshotHeader := unit;
  lrusession := gmap N Session;
  SnapshotContext := unit;
  ISnapshotFileCollection := unit;
  SnapshotFile := unit;
  SnapshotHeaderSize := 1024;
  writer_Write := Write;
  writer_SaveHeader := SaveHeader;
  NewSnapshotReader := Open;
  reader_GetHeader := GetHeader;
  reader_ValidateHeader := ValidateHeader;
  reader_ValidatePayload := ValidatePayload;
  reader_Close := CloseReader;
  lrusession_load := fun x => (x, None);
  lrusession_save := fun x => (x, (0, None))
|}.

Definition getSession (id : N) (l : gmap N Session)
    : gmap N Session * (option Session * bool) :=
  match l !! id with
  | Some s => (l, (Some s, true))
  | None => (l, (None, false))
  end.

Definition store : @SessionStore collaborators :=
  @Build_SessionStore collaborators
    4096
    (fun _ => (∅ : gmap N Session))
    (fun id => mkSession id 0 ∅)
    getSession
    (fun id s (l : gmap N Session) => <[id := s]> l)
    (fun id (l : gmap N Session) => delete id l)
    (fun l => (l, 0)).

(** The byte counter of [Mock], over these collaborators: its recovery
    restores the count 7. *)
Definition counter_methods : @sm.IStateMachine.Methods collaborators N :=
  @sm.IStateMachine.Build_Methods collaborators N
    (fun cmd u => (u + N.of_nat (length cmd), u + N.of_nat (length cmd)))
    (fun _ u => (u, []))
    (fun _ x => (fst x, fst (Write [Byte.x2a] (snd x)), (1, None)))
    (fun _ x => (7, snd x, None))
    (fun u => (u, tt))
    (fun u => (u, u)).

Definition adapter
    : @IStateMachine.Methods collaborators (RegularStateMachine.t N) :=
  @RegularStateMachine.methods collaborators N counter_methods.

Definition regular (u : N) (sessions : gmap N Session)
    : @NativeStateMachine.t collaborators (RegularStateMachine.t N) :=
  @NativeStateMachine.NewNativeStateMachine collaborators
    (RegularStateMachine.t N) (RegularStateMachine.mk u) sessions.

End MockStore.

(** * Offload tracker *)

(** The step worker loads, node-host offloads (the two workers that never
    loaded are marked with it), the step worker offloads. *)
Example status_run_ready :
  status_run [CallSetLoaded FromStepWorker; CallSetOffloaded FromNodeHost;
              CallSetOffloaded FromStepWorker] zeroOffloadedStatus
  = mkOffloadedStatus true false true true true true true false false.
Proof. reflexivity. Qed.

Example status_run_not_ready :
  status_run [CallSetLoaded FromStepWorker; CallSetOffloaded FromNodeHost]
    zeroOffloadedStatus
  = mkOffloadedStatus false false true false true true true false false.
Proof. reflexivity. Qed.

Example SetOffloaded_unknown_component :
  SetOffloaded 4 zeroOffloadedStatus
  = (zeroOffloadedStatus, [], Panicked "unknown offloadFrom value").
Proof. reflexivity. Qed.

Lemma From_cases (from : From) :
  from = FromNodeHost \/ from = FromStepWorker \/ from = FromCommitWorker
  \/ from = FromSnapshotWorker
  \/ ((from =? FromNodeHost) = false /\ (from =? FromStepWorker) = false
      /\ (from =? FromCommitWorker) = false
      /\ (from =? FromSnapshotWorker) = false).
Proof.
  destruct (N.eqb_spec from FromNodeHost); [tauto|].
  destruct (N.eqb_spec from FromStepWorker); [tauto|].
  destruct (N.eqb_spec from FromCommitWorker); [tauto|].
  destruct (N.eqb_spec from FromSnapshotWorker); tauto.
Qed.

Ltac from_cases from :=
  let H0 := fresh "Hnh" in
  let H1 := fresh "Hsw" in
  let H2 := fresh "Hcw" in
  let H3 := fresh "Hnw" in
  destruct (From_cases from) as [-> | [-> | [-> | [-> | (H0 & H1 & H2 & H3)]]]].

Ltac all_flags o :=
  destruct o as [[] [] [] [] [] [] [] [] []].

(** An unknown component is refused by both methods before anything is
    stored. *)
Lemma SetOffloaded_unknown (from : From) (o : OffloadedStatus) :
  (from =? FromNodeHost) = false -> (from =? FromStepWorker) = false ->
  (from =? FromCommitWorker) = false -> (from =? FromSnapshotWorker) = false ->
  SetOffloaded from o = (o, [], Panicked "unknown offloadFrom value").
Proof.
  intros H0 H1 H2 H3. unfold SetOffloaded, bind. now rewrite H0, H1, H2, H3.
Qed.

Lemma SetLoaded_unknown (from : From) (o : OffloadedStatus) :
  (from =? FromNodeHost) = false -> (from =? FromStepWorker) = false ->
  (from =? FromCommitWorker) = false -> (from =? FromSnapshotWorker) = false ->
  SetLoaded from o = (o, [], Panicked "unknown offloadFrom value").
Proof.
  intros H0 H1 H2 H3. unfold SetLoaded, bind, get.
  rewrite H0, H1, H2, H3. now destruct (offloadedFromNodeHost o).
Qed.

(** The tracker's methods make no call on a collaborator. *)
Lemma SetOffloaded_calls (from : From) (o : OffloadedStatus) :
  calls_of (SetOffloaded from o) = [].
Proof.
  from_cases from; [all_flags o; reflexivity .. |].
  now rewrite SetOffloaded_unknown.
Qed.

Lemma SetLoaded_calls (from : From) (o : OffloadedStatus) :
  calls_of (SetLoaded from o) = [].
Proof.
  from_cases from; [all_flags o; reflexivity .. |].
  now rewrite SetLoaded_unknown.
Qed.

(** A call never clears a flag. *)
Lemma status_step_flags_le (c : status_call) (o : OffloadedStatus) :
  flags_le o (state_of (status_step c o)) = true.
Proof.
  destruct c as [from | from |]; simpl.
  - from_cases from; [all_flags o; reflexivity .. |].
    rewrite SetLoaded_unknown by assumption. all_flags o; reflexivity.
  - from_cases from; [all_flags o; reflexivity .. |].
    rewrite SetOffloaded_unknown by assumption. all_flags o; reflexivity.
  - all_flags o; reflexivity.
Qed.

Lemma flags_le_spec (o o' : OffloadedStatus) :
  flags_le o o' = true <->
  Forall (fun flag => flag o = true -> flag o' = true) flags.
Proof.
  unfold flags_le, flags.
  rewrite !Forall_cons, Forall_nil, !andb_true_iff, !implb_true_iff. tauto.
Qed.

Lemma status_run_flags_le (cs : list status_call) (o : OffloadedStatus) :
  Forall (fun flag => flag o = true -> flag (status_run cs o) = true) flags.
Proof.
  revert o. induction cs as [|c cs IH]; intros o; simpl.
  - apply Forall_forall; auto.
  - pose proof (proj1 (flags_le_spec _ _) (status_step_flags_le c o)) as Hc.
    specialize (IH (state_of (status_step c o))).
    rewrite Forall_forall in *. intros f Hf Ho. auto.
Qed.

(** The two invariants are kept by every call, whatever its outcome. *)
Lemma status_step_tracker_inv (c : status_call) (o : OffloadedStatus) :
  tracker_inv o = true -> tracker_inv (state_of (status_step c o)) = true.
Proof.
  destruct c as [from | from |]; simpl.
  - from_cases from; [all_flags o; try discriminate; reflexivity .. |].
    now rewrite SetLoaded_unknown.
  - from_cases from; [all_flags o; try discriminate; reflexivity .. |].
    now rewrite SetOffloaded_unknown.
  - all_flags o; try discriminate; reflexivity.
Qed.

Lemma status_run_tracker_inv (cs : list status_call) (o : OffloadedStatus) :
  tracker_inv o = true -> tracker_inv (status_run cs o) = true.
Proof.
  revert o. induction cs as [|c cs IH]; intros o Ho; simpl; auto.
  apply IH, status_step_tracker_inv, Ho.
Qed.

Lemma settled_after (from : From) (o : OffloadedStatus) :
  outcome_of (SetOffloaded from o) = Returned tt ->
  settled from (state_of (SetOffloaded from o)) = true.
Proof.
  from_cases from; [all_flags o; reflexivity .. |].
  now rewrite SetOffloaded_unknown.
Qed.

Lemma settled_step (from : From) (c : status_call) (o : OffloadedStatus) :
  settled from o = true -> settled from (state_of (status_step c o)) = true.
Proof.
  intros Ho.
  from_cases from.
  5: { unfold settled, offloadedFrom in Ho.
       now rewrite Hnh, Hsw, Hcw, Hnw in Ho. }
  all: destruct c as [from' | from' |]; simpl.
  all: try (from_cases from';
            [all_flags o; try discriminate; reflexivity .. |];
            first [ rewrite SetLoaded_unknown by assumption; exact Ho
                  | rewrite SetOffloaded_unknown by assumption; exact Ho ]).
  all: all_flags o; try discriminate; reflexivity.
Qed.

Lemma settled_run (from : From) (cs : list status_call) (o : OffloadedStatus) :
  settled from o = true -> settled from (status_run cs o) = true.
Proof.
  revert o. induction cs as [|c cs IH]; intros o Ho; simpl; auto.
  apply IH, settled_step, Ho.
Qed.

Lemma settled_fixed (from : From) (o : OffloadedStatus) :
  settled from o = true -> SetOffloaded from o = (o, [], Returned tt).
Proof.
  from_cases from; [all_flags o; try discriminate; reflexivity .. |].
  unfold settled, offloadedFrom. now rewrite Hnh, Hsw, Hcw, Hnw.
Qed.

Lemma tracker_inv_settled (from : From) (o : OffloadedStatus) :
  tracker_inv o = true -> offloadedFrom from o = true -> settled from o = true.
Proof.
  from_cases from; [all_flags o; try discriminate; reflexivity .. |].
  unfold offloadedFrom. rewrite Hnh, Hsw, Hcw, Hnw. discriminate.
Qed.

Lemma SetOffloaded_returns (from : From) (o : OffloadedStatus) :
  from = FromNodeHost \/ from = FromStepWorker \/ from = FromCommitWorker
  \/ from = FromSnapshotWorker ->
  outcome_of (SetOffloaded from o) = Returned tt.
Proof. intros [-> | [-> | [-> | ->]]]; all_flags o; reflexivity. Qed.

Lemma SetLoaded_panics (from : From) (o : OffloadedStatus) :
  from = FromNodeHost \/
  (offloadedFromNodeHost o = true /\
   (from = FromStepWorker \/ from = FromCommitWorker
    \/ from = FromSnapshotWorker)) ->
  exists msg, SetLoaded from o = (o, [], Panicked msg).
Proof.
  intros [-> | [Hnh [-> | [-> | ->]]]];
    all_flags o; try discriminate; eexists; reflexivity.
Qed.

(** * Managed state machine: lifecycle *)

Section LifecycleFacts.
Context `{Collaborators} {S : Type} `{!IStateMachine.Methods S}.

Import NativeStateMachine.

Lemma Loaded_eq (from : From) (ds : NativeStateMachine.t S) :
  Loaded from ds =
  (set_status (state_of (SetLoaded from (status ds))) ds,
   [MuLock; MuUnlock], outcome_of (SetLoaded from (status ds))).
Proof.
  generalize (SetLoaded_calls from (status ds)).
  unfold Loaded, defer, promoted, zoom, bind, emit.
  destruct (SetLoaded from (status ds)) as [[o1 tr] r].
  unfold calls_of, state_of, outcome_of; simpl. intros ->. reflexivity.
Qed.

Lemma Offloaded_eq (from : From) (ds : NativeStateMachine.t S) :
  Offloaded from ds =
  let o1 := state_of (SetOffloaded from (status ds)) in
  match outcome_of (SetOffloaded from (status ds)) with
  | Panicked msg => (set_status o1 ds, [MuLock; MuUnlock], Panicked msg)
  | Returned _ =>
      if readyToDestroy o1 && negb (destroyed o1) then
        (mk (fst (IStateMachine.Close (sm ds))) (set_destroyed true o1)
            (manager ds),
         [MuLock; SmClose; MuUnlock], Returned tt)
      else (set_status o1 ds, [MuLock; MuUnlock], Returned tt)
  end.
Proof.
  generalize (SetOffloaded_calls from (status ds)).
  unfold Offloaded, closeStateMachine, on_sm, defer, promoted, zoom, bind,
    emit, total, ReadyToDestroy, Destroyed, SetDestroyed, get, modify, ret.
  destruct (SetOffloaded from (status ds)) as [[o1 tr] r].
  unfold calls_of, state_of, outcome_of; simpl. intros ->. destruct ds as [s o m]. simpl.
  destruct r as [[]|msg]; [|reflexivity].
  unfold set_status; cbn.
  destruct (readyToDestroy o1); [|reflexivity].
  cbn. destruct (destroyed o1); [reflexivity|].
  cbn. destruct (IStateMachine.Close s) as [s' []]. reflexivity.
Qed.

Lemma native_step_inv (c : native_call) (ds : NativeStateMachine.t S) :
  native_inv ds = true ->
  let r := native_step c ds in
  native_inv (state_of r) = true
  /\ implb (readyToDestroy (status ds)) (readyToDestroy (status (state_of r)))
     = true
  /\ count_calls is_SmClose (calls_of r) = closes_expected ds (state_of r).
Proof.
  destruct ds as [s o m]. unfold native_inv, closes_expected. simpl.
  destruct c as [from | from]; simpl.
  - rewrite Loaded_eq. simpl.
    from_cases from;
      [all_flags o; try discriminate; intros _; repeat split; reflexivity .. |].
    rewrite SetLoaded_unknown by assumption. simpl.
    all_flags o; try discriminate; intros _; repeat split; reflexivity.
  - rewrite Offloaded_eq. simpl.
    from_cases from;
      [all_flags o; try discriminate; intros _; repeat split; reflexivity .. |].
    rewrite SetOffloaded_unknown by assumption. simpl.
    all_flags o; try discriminate; intros _; repeat split; reflexivity.
Qed.
End LifecycleFacts.

Lemma count_calls_app (p : call -> bool) (a b : list call) :
  count_calls p (a ++ b) = (count_calls p a + count_calls p b)%nat.
Proof. unfold count_calls. now rewrite List.filter_app, length_app. Qed.

Section LifecycleRuns.
Context `{Collaborators} {S : Type} `{!IStateMachine.Methods S}.

Import NativeStateMachine.

Lemma native_run_inv (cs : list native_call) (ds : NativeStateMachine.t S) :
  native_inv ds = true ->
  native_inv (fst (native_run cs ds)) = true
  /\ implb (readyToDestroy (status ds))
           (readyToDestroy (status (fst (native_run cs ds)))) = true
  /\ count_calls is_SmClose (snd (native_run cs ds))
     = closes_expected ds (fst (native_run cs ds)).
Proof.
  revert ds. induction cs as [|c cs IH]; intros ds Hds; simpl.
  - unfold closes_expected. repeat split; auto.
    all: destruct (readyToDestroy (status ds)); reflexivity.
  - destruct (native_step_inv c ds Hds) as (Hi & Hm & Hc).
    destruct (IH _ Hi) as (Hi' & Hm' & Hc').
    destruct (native_run cs (state_of (native_step c ds))) as [ds' tr].
    simpl in *. rewrite count_calls_app, Hc, Hc'. unfold closes_expected.
    repeat split; auto.
    all: destruct (readyToDestroy (status ds)),
           (readyToDestroy (status (state_of (native_step c ds)))),
           (readyToDestroy (status ds')); try discriminate; reflexivity.
Qed.

Lemma New_inv (s : S) (sessions : lrusession) :
  native_inv (NewNativeStateMachine s sessions) = true.
Proof. reflexivity. Qed.
End LifecycleRuns.

(** C9.  Once the offloaded-from-node-host flag is set, it stays set
    whatever calls follow, and [SetLoaded] from the step worker, the commit
    worker or the snapshot worker then panics; [SetLoaded(FromNodeHost)]
    panics on every tracker.  The panicking call stores nothing. *)
Theorem SetLoaded_fatal (o : OffloadedStatus) (cs : list status_call)
    (from : From) :
  from = FromNodeHost \/
  (offloadedFromNodeHost o = true /\
   (from = FromStepWorker \/ from = FromCommitWorker
    \/ from = FromSnapshotWorker)) ->
  exists msg,
    SetLoaded from (status_run cs o) = (status_run cs o, [], Panicked msg).
Proof.
  intros Hfrom. apply SetLoaded_panics.
  destruct Hfrom as [-> | [Hnh Hw]]; [now left | right; split; [|exact Hw]].
  pose proof (status_run_flags_le cs o) as Hle.
  rewrite Forall_forall in Hle. apply (Hle offloadedFromNodeHost); [|exact Hnh].
  unfold flags. do 2 apply list_elem_of_further. apply list_elem_of_here.
Qed.

Lemma SetLoaded_fatal_witness :
  exists msg,
    SetLoaded FromCommitWorker
      (status_run [CallSetOffloaded FromStepWorker]
         (status_run [CallSetLoaded FromStepWorker; CallSetOffloaded FromNodeHost]
            zeroOffloadedStatus))
    = (status_run [CallSetOffloaded FromStepWorker]
         (status_run [CallSetLoaded FromStepWorker; CallSetOffloaded FromNodeHost]
            zeroOffloadedStatus), [], Panicked msg).
Proof.
  apply (SetLoaded_fatal
           (status_run [CallSetLoaded FromStepWorker; CallSetOffloaded FromNodeHost]
              zeroOffloadedStatus)
           [CallSetOffloaded FromStepWorker] FromCommitWorker).
  right. split; [reflexivity | right; left; reflexivity].
Defined.

(** C10.  No call of [SetLoaded], [SetOffloaded] or [SetDestroyed] clears
    any of the nine flags, on any tracker and whether the call returns or
    panics.  Calling [SetOffloaded] again for a component, after any calls
    in between, leaves the whole tracker as it is; and on a tracker that
    started from the zero value, [SetOffloaded] for a component whose
    offloaded-from flag is already set returns with the tracker unchanged. *)
Theorem flags_never_reset (cs : list status_call) (o : OffloadedStatus) :
  Forall (fun flag => flag o = true -> flag (status_run cs o) = true) flags
  /\ (forall from,
        let o' := status_run cs (state_of (SetOffloaded from o)) in
        state_of (SetOffloaded from o') = o')
  /\ (forall from,
        offloadedFrom from (status_run cs zeroOffloadedStatus) = true ->
        SetOffloaded from (status_run cs zeroOffloadedStatus)
        = (status_run cs zeroOffloadedStatus, [], Returned tt)).
Proof.
  split; [apply status_run_flags_le | split].
  - intros from. cbv zeta. from_cases from.
    5: now rewrite !SetOffloaded_unknown by assumption.
    all: match goal with
         | |- state_of (SetOffloaded ?f _) = _ =>
             rewrite (settled_fixed f _
               (settled_run f cs _ (settled_after f o
                  (SetOffloaded_returns f o ltac:(tauto)))))
         end; reflexivity.
  - intros from Hoff. apply settled_fixed, tracker_inv_settled; [|exact Hoff].
    now apply status_run_tracker_inv.
Qed.

Lemma flags_never_reset_witness :
  SetOffloaded FromStepWorker
    (status_run [CallSetLoaded FromStepWorker; CallSetOffloaded FromStepWorker]
       zeroOffloadedStatus)
  = (status_run [CallSetLoaded FromStepWorker; CallSetOffloaded FromStepWorker]
       zeroOffloadedStatus, [], Returned tt).
Proof.
  apply (proj2 (proj2 (flags_never_reset
           [CallSetLoaded FromStepWorker; CallSetOffloaded FromStepWorker]
           zeroOffloadedStatus)) FromStepWorker).
  reflexivity.
Defined.

(** * Offload completeness *)

Lemma worker_cases (w : From) :
  is_worker w = true ->
  w = FromStepWorker \/ w = FromCommitWorker \/ w = FromSnapshotWorker.
Proof.
  intros Hw. from_cases w; try tauto; try discriminate.
  unfold is_worker in Hw. now rewrite Hsw, Hcw, Hnw in Hw.
Qed.

(** A loaded-by flag is set by a [SetLoaded] of that worker that returns,
    and by nothing else. *)
Lemma loadedBy_step (w : From) (c : status_call) (o : OffloadedStatus) :
  is_worker w = true ->
  loadedBy w (state_of (status_step c o))
  = loadedBy w o
    || (is_load_of w c && negb (panicked (outcome_of (status_step c o)))).
Proof.
  intros Hw. apply worker_cases in Hw.
  destruct c as [from | from |]; simpl.
  - from_cases from.
    5: { rewrite SetLoaded_unknown by assumption. simpl.
         now rewrite andb_false_r, orb_false_r. }
    all: destruct Hw as [-> | [-> | ->]]; all_flags o; reflexivity.
  - rewrite orb_false_r. from_cases from.
    5: now rewrite SetOffloaded_unknown by assumption.
    all: destruct Hw as [-> | [-> | ->]]; all_flags o; reflexivity.
  - rewrite orb_false_r.
    destruct Hw as [-> | [-> | ->]]; all_flags o; reflexivity.
Qed.

Lemma loadedBy_reported (w : From) (cs : list status_call)
    (o : OffloadedStatus) :
  is_worker w = true ->
  loadedBy w (status_run cs o) = loadedBy w o || reported_loading w cs o.
Proof.
  intros Hw. revert o. induction cs as [|c cs IH]; intros o; simpl.
  - now rewrite orb_false_r.
  - now rewrite IH, (loadedBy_step w c o Hw), orb_assoc.
Qed.

Lemma reported_loading_In (w : From) (cs : list status_call)
    (o : OffloadedStatus) :
  reported_loading w cs o = true -> In (CallSetLoaded w) cs.
Proof.
  revert o. induction cs as [|c cs IH]; intros o; simpl; [discriminate|].
  intros Hr. apply orb_true_iff in Hr. destruct Hr as [Hc | Hr].
  - left. apply andb_true_iff in Hc. destruct Hc as [Hc _].
    destruct c as [from | from |]; simpl in Hc; try discriminate.
    apply N.eqb_eq in Hc. now subst.
  - right. now apply (IH _ Hr).
Qed.

(** What [SetOffloaded(FromNodeHost)] does to the flag of a worker. *)
Lemma nodehost_offload_worker (w : From) (o : OffloadedStatus) :
  is_worker w = true ->
  offloadedFrom w (state_of (SetOffloaded FromNodeHost o))
  = offloadedFrom w o || negb (loadedBy w o).
Proof.
  intros Hw. apply worker_cases in Hw.
  destruct Hw as [-> | [-> | ->]]; all_flags o; reflexivity.
Qed.

Section OffloadedReachable.
Context `{Collaborators} {S : Type} `{!IStateMachine.Methods S}.
Import NativeStateMachine.

(** [Offloaded] on a managed state machine on which [destroyed] is set
    exactly when [readyToDestroy] is. *)
Lemma Offloaded_reachable (from : From) (ds : NativeStateMachine.t S) :
  native_inv ds = true ->
  let o1 := state_of (SetOffloaded from (status ds)) in
  let closing := readyToDestroy o1 && negb (readyToDestroy (status ds)) in
  Offloaded from ds
  = (mk (if closing then fst (IStateMachine.Close (sm ds)) else sm ds)
        (set_destroyed (readyToDestroy o1) o1) (manager ds),
     if closing then [MuLock; SmClose; MuUnlock] else [MuLock; MuUnlock],
     outcome_of (SetOffloaded from (status ds))).
Proof.
  destruct ds as [s o m]. unfold native_inv. simpl.
  rewrite Offloaded_eq. simpl.
  from_cases from;
    [all_flags o; try discriminate; intros _; reflexivity .. |].
  rewrite SetOffloaded_unknown by assumption. simpl.
  all_flags o; try discriminate; intros _; reflexivity.
Qed.
End OffloadedReachable.

(** C1.  On a tracker that started from the zero value, after every
    sequence of calls [readyToDestroy] is set if and only if the four
    offloaded-from flags are.  [SetOffloaded(FromNodeHost)] sets the
    node-host flag and, besides the flags already set, the flag of exactly
    those workers that have not reported loading, that is for which no
    [SetLoaded] has returned; a worker for which [SetLoaded] was never
    called is among them.  On a managed state machine made by
    [NewNativeStateMachine], after any [Loaded] and [Offloaded] calls:
    [readyToDestroy] is set exactly when the four flags are, and
    [destroyed] with it; [Offloaded] takes the lock, applies [SetOffloaded]
    to the tracker, and, in the call where [readyToDestroy] becomes set,
    calls the adapter's [Close] and sets [destroyed], and in no other
    call; [Loaded] applies [SetLoaded] under the lock and calls nothing on
    the adapter.  So the adapter's [Close] has been called once if
    [readyToDestroy] is set and not at all otherwise. *)
Theorem offload_completeness :
  (forall cs : list status_call,
     let o := status_run cs zeroOffloadedStatus in
     readyToDestroy o = true <->
     offloadedFromNodeHost o = true /\ offloadedFromStepWorker o = true
     /\ offloadedFromCommitWorker o = true
     /\ offloadedFromSnapshotWorker o = true)
  /\ (forall o : OffloadedStatus,
        let o' := state_of (SetOffloaded FromNodeHost o) in
        outcome_of (SetOffloaded FromNodeHost o) = Returned tt
        /\ offloadedFromNodeHost o' = true
        /\ offloadedFromStepWorker o'
           = offloadedFromStepWorker o || negb (loadedByStepWorker o)
        /\ offloadedFromCommitWorker o'
           = offloadedFromCommitWorker o || negb (loadedByCommitWorker o)
        /\ offloadedFromSnapshotWorker o'
           = offloadedFromSnapshotWorker o || negb (loadedBySnapshotWorker o))
  /\ (forall (cs : list status_call) (w : From),
        is_worker w = true ->
        let o := status_run cs zeroOffloadedStatus in
        let o' := state_of (SetOffloaded FromNodeHost o) in
        offloadedFrom w o'
        = offloadedFrom w o
          || negb (reported_loading w cs zeroOffloadedStatus)
        /\ (~ In (CallSetLoaded w) cs -> offloadedFrom w o' = true))
  /\ (forall (C : Collaborators) (S : Type) (A : IStateMachine.Methods S)
             (s : S) (sessions : lrusession) (cs : list native_call),
        let ds := fst (native_run cs
                         (NativeStateMachine.NewNativeStateMachine s sessions)) in
        let tr := snd (native_run cs
                         (NativeStateMachine.NewNativeStateMachine s sessions)) in
        readyToDestroy (NativeStateMachine.status ds)
        = allOffloaded (NativeStateMachine.status ds)
        /\ destroyed (NativeStateMachine.status ds)
           = readyToDestroy (NativeStateMachine.status ds)
        /\ count_calls is_SmClose tr
           = (if readyToDestroy (NativeStateMachine.status ds)
              then 1 else 0)%nat
        /\ (forall c : native_call,
              count_calls is_SmClose (calls_of (native_step c ds))
              = (if readyToDestroy
                      (NativeStateMachine.status (state_of (native_step c ds)))
                    && negb (readyToDestroy (NativeStateMachine.status ds))
                 then 1 else 0)%nat)
        /\ (forall from : From,
              let o1 := state_of (SetOffloaded from
                                    (NativeStateMachine.status ds)) in
              let closing :=
                readyToDestroy o1
                && negb (readyToDestroy (NativeStateMachine.status ds)) in
              NativeStateMachine.Offloaded from ds
              = (NativeStateMachine.mk
                   (if closing
                    then fst (IStateMachine.Close (NativeStateMachine.sm ds))
                    else NativeStateMachine.sm ds)
                   (set_destroyed (readyToDestroy o1) o1)
                   (NativeStateMachine.manager ds),
                 if closing then [MuLock; SmClose; MuUnlock]
                 else [MuLock; MuUnlock],
                 outcome_of (SetOffloaded from
                               (NativeStateMachine.status ds))))
        /\ (forall from : From,
              NativeStateMachine.Loaded from ds
              = (NativeStateMachine.set_status
                   (state_of (SetLoaded from (NativeStateMachine.status ds)))
                   ds,
                 [MuLock; MuUnlock],
                 outcome_of (SetLoaded from (NativeStateMachine.status ds))))).
Proof.
  split; [|split; [|split]].
  - intros cs o.
    pose proof (status_run_tracker_inv cs zeroOffloadedStatus eq_refl) as Hi.
    fold o in Hi. unfold tracker_inv, allOffloaded in Hi.
    apply andb_true_iff in Hi. destruct Hi as [Hi _].
    apply eqb_prop in Hi. rewrite Hi, !andb_true_iff. tauto.
  - intros o o'. subst o'. all_flags o; repeat split; reflexivity.
  - intros cs w Hw o o'. subst o o'.
    rewrite (nodehost_offload_worker w _ Hw), (loadedBy_reported w cs _ Hw).
    assert (Hz : loadedBy w zeroOffloadedStatus = false).
    { destruct (worker_cases w Hw) as [-> | [-> | ->]]; reflexivity. }
    rewrite Hz. simpl. split; [reflexivity|].
    intros Hnot.
    destruct (reported_loading w cs zeroOffloadedStatus) eqn:Hr.
    + contradiction Hnot. now apply (reported_loading_In w cs _ Hr).
    + apply orb_true_r.
  - intros C S A s sessions cs ds tr.
    destruct (native_run_inv cs _ (New_inv s sessions)) as (Hi & _ & Hc).
    fold ds in Hi, Hc. fold tr in Hc.
    pose proof Hi as Hinv. unfold native_inv in Hinv.
    apply andb_true_iff in Hinv. destruct Hinv as [Ht Hd].
    unfold tracker_inv in Ht. apply andb_true_iff in Ht.
    destruct Ht as [Ht _]. apply eqb_prop in Ht. apply eqb_prop in Hd.
    split; [exact Ht|]. split; [exact Hd|]. split; [|split; [|split]].
    + rewrite Hc. unfold closes_expected. simpl.
      now destruct (readyToDestroy (NativeStateMachine.status ds)).
    + intros c. destruct (native_step_inv c ds Hi) as (_ & _ & Hc').
      exact Hc'.
    + intros from. now apply Offloaded_reachable.
    + intros from. apply Loaded_eq.
Qed.

Lemma offload_completeness_witness :
  readyToDestroy
    (status_run [CallSetLoaded FromStepWorker; CallSetOffloaded FromNodeHost;
                 CallSetOffloaded FromStepWorker] zeroOffloadedStatus) = true
  /\ offloadedFrom FromCommitWorker
       (state_of (SetOffloaded FromNodeHost
                    (status_run [CallSetLoaded FromStepWorker]
                       zeroOffloadedStatus))) = true
  /\ offloadedFrom FromStepWorker
       (state_of (SetOffloaded FromNodeHost
                    (status_run [CallSetLoaded FromStepWorker]
                       zeroOffloadedStatus))) = false
  /\ NativeStateMachine.Offloaded (S := RegularStateMachine.t Mock.counter)
       FromNodeHost (Mock.regular 0)
     = (NativeStateMachine.mk (RegularStateMachine.mk 0)
          (mkOffloadedStatus true true true true true true false false false)
          (SessionManager.mk tt),
        [MuLock; SmClose; MuUnlock], Returned tt)
  /\ count_calls is_SmClose
       (snd (native_run (S := RegularStateMachine.t Mock.counter)
               [CallLoaded FromStepWorker; CallOffloaded FromNodeHost;
                CallOffloaded FromStepWorker; CallOffloaded FromStepWorker]
               (Mock.regular 0))) = 1%nat.
Proof.
  destruct offload_completeness as (Hready & _ & Hshort & Hnative).
  split; [|split; [|split; [|split]]].
  - apply (Hready [CallSetLoaded FromStepWorker; CallSetOffloaded FromNodeHost;
                   CallSetOffloaded FromStepWorker]).
    repeat split; reflexivity.
  - apply (proj2 (Hshort [CallSetLoaded FromStepWorker] FromCommitWorker
                    eq_refl)).
    simpl. intros [Heq | []]. discriminate Heq.
  - exact (proj1 (Hshort [CallSetLoaded FromStepWorker] FromStepWorker
                    eq_refl)).
  - exact (proj1 (proj2 (proj2 (proj2 (proj2
             (Hnative Mock.collaborators (RegularStateMachine.t Mock.counter)
                _ (RegularStateMachine.mk 0) tt [])))))
             FromNodeHost).
  - exact (proj1 (proj2 (proj2
             (Hnative Mock.collaborators (RegularStateMachine.t Mock.counter)
                _ (RegularStateMachine.mk 0) tt
                [CallLoaded FromStepWorker; CallOffloaded FromNodeHost;
                 CallOffloaded FromStepWorker; CallOffloaded FromStepWorker])))).
Defined.

(** * Adapters *)

Section RegularFacts.
Context `{Collaborators} {U : Type} `{!sm.IStateMachine.Methods U}.

(** C7.  [RegularStateMachine.Update] panics, having done nothing, on a
    batch whose length is not one; on a batch of one entry it applies the
    entry's command to the user state machine and returns the batch with
    the result stored in that entry. *)
Theorem Regular_Update_one_entry (entries : list Entry)
    (r : RegularStateMachine.t U) :
  (length entries <> 1%nat ->
   RegularStateMachine.Update entries r
   = (r, [], Panicked "len(entries) != 1"))
  /\ (forall e : Entry, entries = [e] ->
      RegularStateMachine.Update entries r
      = (RegularStateMachine.mk
           (fst (sm.IStateMachine.Update (Cmd e) (RegularStateMachine.sm r))),
         [],
         Returned
           [withResult
              (snd (sm.IStateMachine.Update (Cmd e) (RegularStateMachine.sm r)))
              e])).
Proof.
  split.
  - intros Hlen. unfold RegularStateMachine.Update.
    destruct (Nat.eqb_spec (length entries) 1); [contradiction | reflexivity].
  - intros e ->. unfold RegularStateMachine.Update, RegularStateMachine.on_sm,
      bind, total, ret. simpl.
    destruct (sm.IStateMachine.Update (Cmd e) (RegularStateMachine.sm r)).
    reflexivity.
Qed.

Lemma Regular_PrepareSnapshot_panics (r : RegularStateMachine.t U) :
  RegularStateMachine.PrepareSnapshot r
  = (r, [], Panicked "PrepareSnapshot called on RegularStateMachine").
Proof. reflexivity. Qed.

Lemma Regular_SaveSnapshot_ctx (ctx : option SnapshotContext)
    (fc : ISnapshotFileCollection) (x : RegularStateMachine.t U * SnapshotWriter) :
  ctx <> None ->
  RegularStateMachine.SaveSnapshot ctx fc x = (x, [], Panicked "ctx is not nil").
Proof.
  intros Hctx. unfold RegularStateMachine.SaveSnapshot.
  now rewrite bool_decide_eq_true_2.
Qed.
End RegularFacts.

Section NativeFacts.
Context `{Collaborators} {S : Type} `{!IStateMachine.Methods S}.
Import NativeStateMachine.

Lemma Lookup_eq (data : bytes) (ds : NativeStateMachine.t S) :
  Lookup data ds =
  if destroyed (status ds) then
    (ds, [MuRLock; MuRUnlock], Returned ([], Some ErrClusterClosed))
  else
    (set_sm (fst (IStateMachine.Lookup data (sm ds))) ds,
     [MuRLock; SmLookup data; MuRUnlock],
     Returned (snd (IStateMachine.Lookup data (sm ds)))).
Proof.
  unfold Lookup, on_sm, promoted, Destroyed, zoom, bind, emit, total, get, ret.
  destruct ds as [s o m]. simpl.
  destruct (destroyed o); simpl; [reflexivity|].
  destruct (IStateMachine.Lookup data s) as [s' r]. reflexivity.
Qed.

Lemma PrepareSnapshot_not_concurrent (ds : NativeStateMachine.t S) :
  IStateMachine.ConcurrentSnapshot (sm ds) = false ->
  PrepareSnapshot ds
  = (ds, [],
     Panicked "state machine is not capable of concurrent snapshotting").
Proof.
  intros Hc. unfold PrepareSnapshot, ConcurrentSnapshot, bind, get, ret.
  simpl. now rewrite Hc.
Qed.
End NativeFacts.

(** * Sessions *)

(** C4.  [UpdateRequired] has three outcomes: a series ID at or below
    [respondedTo] gives [(0, true, false)]; above it, a retained result [v]
    gives [(v, false, false)]; above it with nothing retained gives
    [(0, false, true)]. *)
Theorem UpdateRequired_three_way (session : Session) (seriesID : N) :
  (seriesID <= respondedTo session ->
   SessionManager.UpdateRequired session seriesID = (0, true, false))
  /\ (forall v : N,
        respondedTo session < seriesID ->
        results session !! seriesID = Some v ->
        SessionManager.UpdateRequired session seriesID = (v, false, false))
  /\ (respondedTo session < seriesID ->
      results session !! seriesID = None ->
      SessionManager.UpdateRequired session seriesID = (0, false, true)).
Proof.
  unfold SessionManager.UpdateRequired, hasResponded, getResponse.
  repeat split.
  - intros Hle. apply N.leb_le in Hle. now rewrite Hle.
  - intros v Hlt Hv. apply N.leb_gt in Hlt. now rewrite Hlt, Hv.
  - intros Hlt Hv. apply N.leb_gt in Hlt. now rewrite Hlt, Hv.
Qed.

Lemma UpdateRequired_three_way_witness :
  SessionManager.UpdateRequired (mkSession 7 3 {[ 5 := 42 ]}) 2 = (0, true, false)
  /\ SessionManager.UpdateRequired (mkSession 7 3 {[ 5 := 42 ]}) 5 = (42, false, false)
  /\ SessionManager.UpdateRequired (mkSession 7 3 {[ 5 := 42 ]}) 6 = (0, false, true).
Proof.
  pose proof (UpdateRequired_three_way (mkSession 7 3 {[ 5 := 42 ]}) 2) as H2.
  pose proof (UpdateRequired_three_way (mkSession 7 3 {[ 5 := 42 ]}) 5) as H5.
  pose proof (UpdateRequired_three_way (mkSession 7 3 {[ 5 := 42 ]}) 6) as H6.
  split; [|split].
  - apply (proj1 H2). simpl. lia.
  - apply (proj1 (proj2 H5) 42); [simpl; lia | reflexivity].
  - apply (proj2 (proj2 H6)); [simpl; lia | reflexivity].
Defined.

Section UpdateFacts.
Context `{Collaborators} {S : Type} `{!IStateMachine.Methods S}.
Import NativeStateMachine.

Lemma Update_retained (seriesID index term v : N) (data : bytes)
    (ds : NativeStateMachine.t S) (s : Session) :
  results s !! seriesID = Some v ->
  Update seriesID index term data (ds, Some s)
  = ((ds, Some s), [], Panicked "already has response in session").
Proof.
  intros Hv. unfold Update, on_arg, on_session, zoom, bind, get, ret, panic,
    getResponse. simpl. rewrite Hv. reflexivity.
Qed.

Lemma Update_applies (seriesID index term : N) (data : bytes)
    (ds : NativeStateMachine.t S) (session : option Session) :
  not_retained seriesID session ->
  let entries := [mkEntry index data 0] in
  Update seriesID index term data (ds, session) =
  match IStateMachine.Update entries (sm ds) with
  | (s1, tr, Panicked msg) =>
      ((set_sm s1 ds, session), SmUpdate entries :: tr, Panicked msg)
  | (s1, tr, Returned [r0]) =>
      ((set_sm s1 ds, after_update seriesID (Result r0) session),
       SmUpdate entries :: tr, Returned (Result r0))
  | (s1, tr, Returned _) =>
      ((set_sm s1 ds, session), SmUpdate entries :: tr,
       Panicked "len(results) != 1")
  end.
Proof.
  intros Hnr entries.
  unfold Update, on_ds, on_sm, on_arg, on_session, addResponse, zoom, bind,
    get, ret, panic, emit, modify, getResponse. fold entries.
  destruct session as [s|]; simpl in *.
  - rewrite Hnr. simpl.
    destruct (IStateMachine.Update entries (sm ds)) as [[s1 tr] [rs|msg]];
      simpl; [|rewrite ?app_nil_r; reflexivity].
    destruct rs as [|r0 [|r1 rs]]; simpl; rewrite ?app_nil_r; try reflexivity.
    rewrite Hnr. simpl. rewrite ?app_nil_r. reflexivity.
  - destruct (IStateMachine.Update entries (sm ds)) as [[s1 tr] [rs|msg]];
      simpl; [|rewrite ?app_nil_r; reflexivity].
    destruct rs as [|r0 [|r1 rs]]; simpl; rewrite ?app_nil_r; reflexivity.
Qed.
End UpdateFacts.

Lemma add64_add64 (a b c : N) : add64 (add64 a b) c = wrap64 (a + b + c).
Proof. unfold add64, wrap64. now rewrite N.Div0.add_mod_idemp_l. Qed.

Section SnapshotFacts.
Context `{Collaborators} {S : Type} `{!IStateMachine.Methods S}.
Import NativeStateMachine.

Lemma SaveSnapshot_eq (ssctx : option SnapshotContext) (session : bytes)
    (collection : ISnapshotFileCollection) (ds : NativeStateMachine.t S)
    (w : SnapshotWriter) :
  let smsz := N.of_nat (length session) in
  SaveSnapshot ssctx session collection (ds, w) =
  match writer_Write session w with
  | (w1, (n, Some e)) => ((ds, w1), [WriterWrite session], Returned (0, Some e))
  | (w1, (n, None)) =>
      if (n =? Z.of_nat (length session))%Z then
        match IStateMachine.SaveSnapshot ssctx collection (sm ds, w1) with
        | ((s1, w2), tr, Panicked msg) =>
            ((set_sm s1 ds, w2), WriterWrite session :: SmSaveSnapshot :: tr,
             Panicked msg)
        | ((s1, w2), tr, Returned (sz, Some e)) =>
            ((set_sm s1 ds, w2), WriterWrite session :: SmSaveSnapshot :: tr,
             Returned (0, Some e))
        | ((s1, w2), tr, Returned (sz, None)) =>
            match writer_SaveHeader smsz sz w2 with
            | (w3, Some e) =>
                ((set_sm s1 ds, w3),
                 WriterWrite session :: SmSaveSnapshot :: tr
                   ++ [WriterSaveHeader smsz sz],
                 Returned (0, Some e))
            | (w3, None) =>
                ((set_sm s1 ds, w3),
                 WriterWrite session :: SmSaveSnapshot :: tr
                   ++ [WriterSaveHeader smsz sz],
                 Returned (wrap64 (smsz + sz + SnapshotHeaderSize), None))
            end
        end
      else ((ds, w1), [WriterWrite session], Returned (0, Some io_ErrShortWrite))
  end.
Proof.
  intros smsz.
  unfold SaveSnapshot, on_sm_io, on_arg, zoom, bind, emit, total, ret.
  fold smsz. simpl.
  destruct (writer_Write session w) as [w1 [n [e|]]]; simpl; [reflexivity|].
  destruct (n =? Z.of_nat (length session))%Z; simpl; [|reflexivity].
  destruct (IStateMachine.SaveSnapshot ssctx collection (sm ds, w1))
    as [[[s1 w2] tr] [[sz [e|]]|msg]]; simpl; rewrite ?app_nil_r;
    try reflexivity.
  destruct (writer_SaveHeader smsz sz w2) as [w3 [e|]]; simpl;
    rewrite ?app_nil_r; try reflexivity.
  rewrite add64_add64, (N.add_comm sz smsz). reflexivity.
Qed.
End SnapshotFacts.

Section RecoverFacts.
Context `{Collaborators} {S : Type} `{!IStateMachine.Methods S}.
Import NativeStateMachine.

Ltac recover_unfold :=
  unfold RecoverFromSnapshot, with_local, defer_assign, on_sm_io, on_arg,
    SessionManager.LoadSessions, zoom, bind, emit, total, partial, ret.

(** Once the reader is open, [RecoverFromSnapshot] closes it exactly once,
    as its last call, on every path; and when it returns, it returns what
    [Close] returned. *)
Lemma RecoverFromSnapshot_closes (fp : string) (files : list SnapshotFile)
    (ds : NativeStateMachine.t S) (reader : SnapshotReader) :
  NewSnapshotReader fp = (reader, None) ->
  exists (tr : list call) (r : SnapshotReader),
    calls_of (RecoverFromSnapshot fp files ds) = tr ++ [ReaderClose]
    /\ count_calls is_ReaderClose tr = 0%nat
    /\ forall e, outcome_of (RecoverFromSnapshot fp files ds) = Returned e ->
                 e = snd (reader_Close r).
Proof.
  intros Hopen. recover_unfold. rewrite Hopen. simpl.
  destruct (reader_GetHeader reader) as [r1 [header [e|]]]; simpl.
  { destruct (reader_Close r1) as [r2 e2] eqn:Hc. simpl.
    exists [ReaderOpen fp; ReaderGetHeader], r1. rewrite Hc.
    repeat split. intros e0 [= <-]. reflexivity. }
  destruct (reader_ValidateHeader header r1) as [r2 [[]|msg]]; simpl.
  2: { destruct (reader_Close r2) as [r3 e3] eqn:Hc. simpl.
       exists [ReaderOpen fp; ReaderGetHeader; ReaderValidateHeader], r2.
       repeat split. intros e0 [=]. }
  destruct (lrusession_load (SessionManager.sessions (manager ds), r2))
    as [[l r3] [e|]]; simpl.
  { destruct (reader_Close r3) as [r4 e4] eqn:Hc. simpl.
    exists [ReaderOpen fp; ReaderGetHeader; ReaderValidateHeader; SessionsLoad],
      r3. rewrite Hc. repeat split. intros e0 [= <-]. reflexivity. }
  destruct (IStateMachine.RecoverFromSnapshot files (sm ds, r3))
    as [[s1 r4] [e|]]; simpl.
  { destruct (reader_Close r4) as [r5 e5] eqn:Hc. simpl.
    exists [ReaderOpen fp; ReaderGetHeader; ReaderValidateHeader; SessionsLoad;
            SmRecoverFromSnapshot], r4.
    rewrite Hc. repeat split. intros e0 [= <-]. reflexivity. }
  destruct (reader_ValidatePayload header r4) as [r5 [[]|msg]]; simpl.
  - destruct (reader_Close r5) as [r6 e6] eqn:Hc. simpl.
    exists [ReaderOpen fp; ReaderGetHeader; ReaderValidateHeader; SessionsLoad;
            SmRecoverFromSnapshot; ReaderValidatePayload], r5.
    rewrite Hc. repeat split. intros e0 [= <-]. reflexivity.
  - destruct (reader_Close r5) as [r6 e6] eqn:Hc. simpl.
    exists [ReaderOpen fp; ReaderGetHeader; ReaderValidateHeader; SessionsLoad;
            SmRecoverFromSnapshot; ReaderValidatePayload], r5.
    repeat split. intros e0 [=].
Qed.

(** C2, the defect.  When the reader opens and [Close] succeeds, a failure
    to read the header, to restore the sessions or to restore the adapter
    is not returned: the deferred closure stores the result of [Close],
    which is nil, over the error that [return err] had stored. *)
Theorem RecoverFromSnapshot_loses_error (fp : string)
    (files : list SnapshotFile) (ds : NativeStateMachine.t S)
    (reader r1 : SnapshotReader) (header : SnapshotHeader) :
  NewSnapshotReader fp = (reader, None) ->
  (forall e r2,
     reader_GetHeader reader = (r1, (header, Some e)) ->
     reader_Close r1 = (r2, None) ->
     RecoverFromSnapshot fp files ds
     = (ds, [ReaderOpen fp; ReaderGetHeader; ReaderClose], Returned None))
  /\ (forall e r2 r3 r4 l,
        reader_GetHeader reader = (r1, (header, None)) ->
        reader_ValidateHeader header r1 = (r2, Returned tt) ->
        lrusession_load (SessionManager.sessions (manager ds), r2)
        = (l, r3, Some e) ->
        reader_Close r3 = (r4, None) ->
        RecoverFromSnapshot fp files ds
        = (set_manager (SessionManager.mk l) ds,
           [ReaderOpen fp; ReaderGetHeader; ReaderValidateHeader;
            SessionsLoad; ReaderClose],
           Returned None))
  /\ (forall e r2 r3 r4 r5 l s1,
        reader_GetHeader reader = (r1, (header, None)) ->
        reader_ValidateHeader header r1 = (r2, Returned tt) ->
        lrusession_load (SessionManager.sessions (manager ds), r2)
        = (l, r3, None) ->
        IStateMachine.RecoverFromSnapshot files (sm ds, r3)
        = (s1, r4, Some e) ->
        reader_Close r4 = (r5, None) ->
        RecoverFromSnapshot fp files ds
        = (set_sm s1 (set_manager (SessionManager.mk l) ds),
           [ReaderOpen fp; ReaderGetHeader; ReaderValidateHeader;
            SessionsLoad; SmRecoverFromSnapshot; ReaderClose],
           Returned None)).
Proof.
  intros Hopen. split; [|split].
  - intros e r2 Hh Hc. recover_unfold. rewrite Hopen. simpl.
    rewrite Hh. simpl. rewrite Hc. reflexivity.
  - intros e r2 r3 r4 l Hh Hv Hl Hc. recover_unfold. rewrite Hopen. simpl.
    rewrite Hh. simpl. rewrite Hv. simpl. rewrite Hl. simpl. rewrite Hc.
    reflexivity.
  - intros e r2 r3 r4 r5 l s1 Hh Hv Hl Hr Hc. recover_unfold.
    rewrite Hopen. simpl. rewrite Hh. simpl. rewrite Hv. simpl.
    rewrite Hl. simpl. rewrite Hr. simpl. rewrite Hc. reflexivity.
Qed.
End RecoverFacts.

(** * Managed state machine: lookup, snapshots and update *)

(** [Close] is called in the third call, which completes the offload, and
    not in the two after it. *)
Example native_run_closes_once :
  snd (native_run [CallLoaded FromStepWorker; CallOffloaded FromNodeHost;
                   CallOffloaded FromStepWorker; CallOffloaded FromStepWorker;
                   CallLoaded FromCommitWorker] (Mock.regular 0))
  = [MuLock; MuUnlock; MuLock; MuUnlock; MuLock; SmClose; MuUnlock;
     MuLock; MuUnlock; MuLock; MuUnlock].
Proof. reflexivity. Qed.

(** C5.  [Lookup] on a managed state machine whose [destroyed] flag is set
    takes and releases the read lock and returns [ErrClusterClosed], with
    no call on the adapter; otherwise it calls the adapter's [Lookup]
    between taking and releasing the read lock and returns what the adapter
    returned.  In particular, once the lifecycle calls on a new managed
    state machine have made it ready to destroy, [Lookup] returns
    [ErrClusterClosed]. *)
Theorem Lookup_after_destroy (C : Collaborators) (S : Type)
    (A : IStateMachine.Methods S) (data : bytes) :
  (forall ds : NativeStateMachine.t S,
     destroyed (NativeStateMachine.status ds) = true ->
     NativeStateMachine.Lookup data ds
     = (ds, [MuRLock; MuRUnlock], Returned ([], Some ErrClusterClosed)))
  /\ (forall ds : NativeStateMachine.t S,
        destroyed (NativeStateMachine.status ds) = false ->
        NativeStateMachine.Lookup data ds
        = (NativeStateMachine.set_sm
             (fst (IStateMachine.Lookup data (NativeStateMachine.sm ds))) ds,
           [MuRLock; SmLookup data; MuRUnlock],
           Returned (snd (IStateMachine.Lookup data (NativeStateMachine.sm ds)))))
  /\ (forall (s : S) (sessions : lrusession) (cs : list native_call),
        let ds := fst (native_run cs
                         (NativeStateMachine.NewNativeStateMachine s sessions)) in
        readyToDestroy (NativeStateMachine.status ds) = true ->
        NativeStateMachine.Lookup data ds
        = (ds, [MuRLock; MuRUnlock], Returned ([], Some ErrClusterClosed))).
Proof.
  split; [|split].
  - intros ds Hd. now rewrite Lookup_eq, Hd.
  - intros ds Hd. now rewrite Lookup_eq, Hd.
  - intros s sessions cs ds Hr.
    destruct (native_run_inv cs _ (New_inv s sessions)) as (Hi & _ & _).
    fold ds in Hi. unfold native_inv in Hi.
    apply andb_true_iff in Hi. destruct Hi as [_ Hi].
    apply eqb_prop in Hi. rewrite Hr in Hi. now rewrite Lookup_eq, Hi.
Qed.

Lemma Lookup_after_destroy_witness :
  NativeStateMachine.Lookup (S := RegularStateMachine.t Mock.counter) []
    (fst (native_run [CallOffloaded FromNodeHost] (Mock.regular 0)))
  = (fst (native_run [CallOffloaded FromNodeHost] (Mock.regular 0)),
     [MuRLock; MuRUnlock], Returned ([], Some ErrClusterClosed)).
Proof.
  apply (proj2 (proj2 (Lookup_after_destroy Mock.collaborators
           (RegularStateMachine.t Mock.counter) _ []))
           (RegularStateMachine.mk 0) tt [CallOffloaded FromNodeHost]).
  reflexivity.
Defined.

Lemma Regular_Update_one_entry_witness :
  RegularStateMachine.Update (U := Mock.counter)
    [mkEntry 9 [Byte.x01; Byte.x02] 0] (RegularStateMachine.mk 5)
  = (RegularStateMachine.mk 7, [], Returned [mkEntry 9 [Byte.x01; Byte.x02] 7])
  /\ RegularStateMachine.Update (U := Mock.counter) [] (RegularStateMachine.mk 5)
     = (RegularStateMachine.mk 5, [], Panicked "len(entries) != 1").
Proof.
  split.
  - exact (proj2 (Regular_Update_one_entry (U := Mock.counter)
             [mkEntry 9 [Byte.x01; Byte.x02] 0] (RegularStateMachine.mk 5))
             (mkEntry 9 [Byte.x01; Byte.x02] 0) eq_refl).
  - apply (proj1 (Regular_Update_one_entry (U := Mock.counter)
             [] (RegularStateMachine.mk 5))).
    simpl. lia.
Defined.

(** C8.  On a [RegularStateMachine], [PrepareSnapshot] panics and
    [SaveSnapshot] with a context that is not nil panics, both before
    anything is done; [NativeStateMachine.PrepareSnapshot] panics, without
    calling the adapter, when the adapter's [ConcurrentSnapshot] is false,
    which is the case of every [RegularStateMachine]; and the managed
    [SaveSnapshot] over a [RegularStateMachine] with a context that is not
    nil panics in the adapter once the session bytes are written. *)
Theorem sequential_snapshot_fatal (C : Collaborators) (U : Type)
    (Um : sm.IStateMachine.Methods U) :
  (forall r : RegularStateMachine.t U,
     RegularStateMachine.PrepareSnapshot r
     = (r, [], Panicked "PrepareSnapshot called on RegularStateMachine"))
  /\ (forall (ctx : option SnapshotContext) (fc : ISnapshotFileCollection)
             (x : RegularStateMachine.t U * SnapshotWriter),
        ctx <> None ->
        RegularStateMachine.SaveSnapshot ctx fc x
        = (x, [], Panicked "ctx is not nil"))
  /\ (forall (S : Type) (A : IStateMachine.Methods S)
             (ds : NativeStateMachine.t S),
        IStateMachine.ConcurrentSnapshot (NativeStateMachine.sm ds) = false ->
        NativeStateMachine.PrepareSnapshot ds
        = (ds, [],
           Panicked "state machine is not capable of concurrent snapshotting"))
  /\ (forall ds : NativeStateMachine.t (RegularStateMachine.t U),
        NativeStateMachine.PrepareSnapshot ds
        = (ds, [],
           Panicked "state machine is not capable of concurrent snapshotting"))
  /\ (forall (ctx : option SnapshotContext) (session : bytes)
             (fc : ISnapshotFileCollection)
             (ds : NativeStateMachine.t (RegularStateMachine.t U))
             (w w1 : SnapshotWriter),
        ctx <> None ->
        writer_Write session w = (w1, (Z.of_nat (length session), None)) ->
        NativeStateMachine.SaveSnapshot ctx session fc (ds, w)
        = ((ds, w1), [WriterWrite session; SmSaveSnapshot],
           Panicked "ctx is not nil")).
Proof.
  split; [|split; [|split; [|split]]].
  - intros r. apply Regular_PrepareSnapshot_panics.
  - intros ctx fc x Hctx. now apply Regular_SaveSnapshot_ctx.
  - intros S A ds Hc. now apply PrepareSnapshot_not_concurrent.
  - intros ds. now apply PrepareSnapshot_not_concurrent.
  - intros ctx session fc ds w w1 Hctx Hw.
    rewrite SaveSnapshot_eq, Hw, Z.eqb_refl. simpl.
    rewrite Regular_SaveSnapshot_ctx by assumption.
    destruct ds as [s o m]. reflexivity.
Qed.

Lemma sequential_snapshot_fatal_witness :
  RegularStateMachine.SaveSnapshot (U := Mock.counter) (Some tt) tt
    (RegularStateMachine.mk 0, Mock.emptyWriter 8)
  = ((RegularStateMachine.mk 0, Mock.emptyWriter 8), [],
     Panicked "ctx is not nil")
  /\ NativeStateMachine.PrepareSnapshot (Mock.regular 0)
     = (Mock.regular 0, [],
        Panicked "state machine is not capable of concurrent snapshotting").
Proof.
  split.
  - apply (proj1 (proj2 (sequential_snapshot_fatal Mock.collaborators
             Mock.counter _)) (Some tt) tt).
    discriminate.
  - apply (proj1 (proj2 (proj2 (sequential_snapshot_fatal Mock.collaborators
             Mock.counter _))) (RegularStateMachine.t Mock.counter) _
             (Mock.regular 0)).
    reflexivity.
Defined.

(** C3, as stated, fails: with no session and an adapter whose [Update]
    returns an empty batch, nothing is retained for the series ID, yet
    [Update] does not return a result: it panics on the length check. *)
Lemma Update_length_check_counterexample :
  NativeStateMachine.Update (S := ConcurrentStateMachine.t Mock.scripted)
    1 5 1 [Byte.x01]
    (Mock.concurrent (Mock.mkScripted [] (0, None)), None)
  = ((Mock.concurrent (Mock.mkScripted [] (0, None)), None),
     [SmUpdate [mkEntry 5 [Byte.x01] 0]],
     Panicked "len(results) != 1").
Proof. reflexivity. Qed.

(** C3, amended.  [Update] panics, having done nothing, when the session
    it is given retains a result for the series ID.  Otherwise it calls the
    adapter's [Update] on the single entry made of [index] and [data];
    when the adapter returns exactly one entry, the result of that entry is
    stored in the session under the series ID, if a session was given, and
    returned; when the adapter returns a batch of any other length,
    [Update] panics and the session is left as it was. *)
Theorem Update_applies_once (C : Collaborators) (S : Type)
    (A : IStateMachine.Methods S) (seriesID index term : N) (data : bytes)
    (ds : NativeStateMachine.t S) (session : option Session) :
  let entries := [mkEntry index data 0] in
  (forall (s : Session) (v : N),
     session = Some s -> results s !! seriesID = Some v ->
     NativeStateMachine.Update seriesID index term data (ds, session)
     = ((ds, session), [], Panicked "already has response in session"))
  /\ (forall (s1 : S) (tr : list call) (r0 : Entry),
        not_retained seriesID session ->
        IStateMachine.Update entries (NativeStateMachine.sm ds)
        = (s1, tr, Returned [r0]) ->
        NativeStateMachine.Update seriesID index term data (ds, session)
        = ((NativeStateMachine.set_sm s1 ds,
            after_update seriesID (Result r0) session),
           SmUpdate entries :: tr, Returned (Result r0))
        /\ forall s' : Session,
             after_update seriesID (Result r0) session = Some s' ->
             getResponse seriesID s' = (Result r0, true))
  /\ (forall (s1 : S) (tr : list call) (rs : list Entry),
        not_retained seriesID session ->
        IStateMachine.Update entries (NativeStateMachine.sm ds)
        = (s1, tr, Returned rs) ->
        length rs <> 1%nat ->
        NativeStateMachine.Update seriesID index term data (ds, session)
        = ((NativeStateMachine.set_sm s1 ds, session),
           SmUpdate entries :: tr, Panicked "len(results) != 1")).
Proof.
  intros entries. split; [|split].
  - intros s v -> Hv. now apply (Update_retained _ _ _ v).
  - intros s1 tr r0 Hnr Hu. split.
    + rewrite Update_applies by assumption. fold entries. now rewrite Hu.
    + intros s' Hs'. destruct session as [s|]; [|discriminate].
      injection Hs' as <-. unfold getResponse, recorded. simpl.
      now rewrite lookup_insert_eq.
  - intros s1 tr rs Hnr Hu Hlen.
    rewrite Update_applies by assumption. fold entries. rewrite Hu.
    destruct rs as [|r0 [|r1 rs]]; [reflexivity | | reflexivity].
    now contradiction Hlen.
Qed.

Lemma Update_applies_once_witness :
  NativeStateMachine.Update (S := RegularStateMachine.t Mock.counter)
    1 5 1 [Byte.x01; Byte.x02] (Mock.regular 40, Some (mkSession 7 0 ∅))
  = ((NativeStateMachine.set_sm (RegularStateMachine.mk 42) (Mock.regular 40),
      after_update 1 42 (Some (mkSession 7 0 ∅))),
     [SmUpdate [mkEntry 5 [Byte.x01; Byte.x02] 0]], Returned 42).
Proof.
  exact (proj1 (proj1 (proj2 (Update_applies_once Mock.collaborators
           (RegularStateMachine.t Mock.counter) _ 1 5 1 [Byte.x01; Byte.x02]
           (Mock.regular 40) (Some (mkSession 7 0 ∅))))
           (RegularStateMachine.mk 42) []
           (mkEntry 5 [Byte.x01; Byte.x02] 42) eq_refl eq_refl)).
Defined.

(** C6, as stated, fails: the sizes are added in [uint64].  With an empty
    session section and an adapter that reports [2^64 - 1] bytes, the
    header is saved with these sizes and the size returned is 1023, not
    the sum of the three. *)
Lemma SaveSnapshot_wraps_counterexample :
  NativeStateMachine.SaveSnapshot (S := ConcurrentStateMachine.t Mock.scripted)
    None [] tt
    (Mock.concurrent (Mock.mkScripted [] (18446744073709551615, None)),
     Mock.emptyWriter 0)
  = ((Mock.concurrent (Mock.mkScripted [] (18446744073709551615, None)),
      Mock.mkWriter [] (Some (0, 18446744073709551615)) 0),
     [WriterWrite []; SmSaveSnapshot; WriterSaveHeader 0 18446744073709551615],
     Returned (1023, None))
  /\ 1023 <> 0 + 18446744073709551615 + SnapshotHeaderSize.
Proof. split; [vm_compute; reflexivity | vm_compute; discriminate]. Qed.

(** C6, amended.  When the writer takes the whole session section, the
    adapter's save returns a size and the header is saved, [SaveSnapshot]
    has called, in this order, [Write] with the session bytes, the
    adapter's [SaveSnapshot] on the writer so advanced, and [SaveHeader]
    with the two section sizes, and returns the sum of the session size,
    the adapter's size and [SnapshotHeaderSize] in [uint64], that is modulo
    [2^64]: the sum itself when it is below [2^64].  When [Write] reports
    fewer bytes than the session section has, [SaveSnapshot] returns
    [io.ErrShortWrite] and the adapter is not called; an error of the
    adapter's save is returned as the adapter gave it, after the call on
    the adapter. *)
Theorem SaveSnapshot_layout (C : Collaborators) (S : Type)
    (A : IStateMachine.Methods S) (ssctx : option SnapshotContext)
    (session : bytes) (collection : ISnapshotFileCollection)
    (ds : NativeStateMachine.t S) (w : SnapshotWriter) :
  let smsz := N.of_nat (length session) in
  (forall (w1 w2 w3 : SnapshotWriter) (s1 : S) (tr : list call) (sz : N),
     writer_Write session w = (w1, (Z.of_nat (length session), None)) ->
     IStateMachine.SaveSnapshot ssctx collection (NativeStateMachine.sm ds, w1)
     = ((s1, w2), tr, Returned (sz, None)) ->
     writer_SaveHeader smsz sz w2 = (w3, None) ->
     NativeStateMachine.SaveSnapshot ssctx session collection (ds, w)
     = ((NativeStateMachine.set_sm s1 ds, w3),
        WriterWrite session :: SmSaveSnapshot :: tr
          ++ [WriterSaveHeader smsz sz],
        Returned ((smsz + sz + SnapshotHeaderSize) mod 2 ^ 64, None))
     /\ (smsz + sz + SnapshotHeaderSize < 2 ^ 64 ->
         NativeStateMachine.SaveSnapshot ssctx session collection (ds, w)
         = ((NativeStateMachine.set_sm s1 ds, w3),
            WriterWrite session :: SmSaveSnapshot :: tr
              ++ [WriterSaveHeader smsz sz],
            Returned (smsz + sz + SnapshotHeaderSize, None))))
  /\ (forall (w1 : SnapshotWriter) (n : Z),
        writer_Write session w = (w1, (n, None)) ->
        n <> Z.of_nat (length session) ->
        NativeStateMachine.SaveSnapshot ssctx session collection (ds, w)
        = ((ds, w1), [WriterWrite session],
           Returned (0, Some io_ErrShortWrite)))
  /\ (forall (w1 w2 : SnapshotWriter) (s1 : S) (tr : list call) (sz : N)
             (e : err),
        writer_Write session w = (w1, (Z.of_nat (length session), None)) ->
        IStateMachine.SaveSnapshot ssctx collection
          (NativeStateMachine.sm ds, w1)
        = ((s1, w2), tr, Returned (sz, Some e)) ->
        NativeStateMachine.SaveSnapshot ssctx session collection (ds, w)
        = ((NativeStateMachine.set_sm s1 ds, w2),
           WriterWrite session :: SmSaveSnapshot :: tr,
           Returned (0, Some e))).
Proof.
  intros smsz. split; [|split].
  - intros w1 w2 w3 s1 tr sz Hw Ha Hh.
    assert (Heq : NativeStateMachine.SaveSnapshot ssctx session collection (ds, w)
                  = ((NativeStateMachine.set_sm s1 ds, w3),
                     WriterWrite session :: SmSaveSnapshot :: tr
                       ++ [WriterSaveHeader smsz sz],
                     Returned ((smsz + sz + SnapshotHeaderSize) mod 2 ^ 64, None))).
    { rewrite SaveSnapshot_eq, Hw, Z.eqb_refl, Ha. fold smsz. now rewrite Hh. }
    split; [exact Heq|]. intros Hlt. rewrite Heq.
    now rewrite N.mod_small.
  - intros w1 n Hw Hn. rewrite SaveSnapshot_eq, Hw.
    apply Z.eqb_neq in Hn. now rewrite Hn.
  - intros w1 w2 s1 tr sz e Hw Ha.
    now rewrite SaveSnapshot_eq, Hw, Z.eqb_refl, Ha.
Qed.

(** An adapter whose save fails with [io.ErrShortWrite]: the error is
    passed on after the call on the adapter, and no header is saved. *)
Example SaveSnapshot_adapter_error :
  NativeStateMachine.SaveSnapshot (S := ConcurrentStateMachine.t Mock.scripted)
    None [Byte.x01] tt
    (Mock.concurrent (Mock.mkScripted [] (0, Some io_ErrShortWrite)),
     Mock.emptyWriter 4)
  = ((Mock.concurrent (Mock.mkScripted [] (0, Some io_ErrShortWrite)),
      Mock.mkWriter [Byte.x01] None 3),
     [WriterWrite [Byte.x01]; SmSaveSnapshot],
     Returned (0, Some io_ErrShortWrite)).
Proof. reflexivity. Qed.

Lemma SaveSnapshot_layout_witness :
  NativeStateMachine.SaveSnapshot (S := RegularStateMachine.t Mock.counter)
    None [Byte.x01; Byte.x02] tt (Mock.regular 0, Mock.emptyWriter 10)
  = ((Mock.regular 0,
      Mock.mkWriter [Byte.x01; Byte.x02; Byte.x2a] (Some (2, 1)) 7),
     [WriterWrite [Byte.x01; Byte.x02]; SmSaveSnapshot; WriterSaveHeader 2 1],
     Returned (1027, None))
  /\ NativeStateMachine.SaveSnapshot (S := RegularStateMachine.t Mock.counter)
       None [Byte.x01; Byte.x02] tt (Mock.regular 0, Mock.emptyWriter 1)
     = ((Mock.regular 0, Mock.mkWriter [Byte.x01] None 0),
        [WriterWrite [Byte.x01; Byte.x02]],
        Returned (0, Some io_ErrShortWrite)).
Proof.
  pose proof (SaveSnapshot_layout Mock.collaborators
                (RegularStateMachine.t Mock.counter) _ None
                [Byte.x01; Byte.x02] tt (Mock.regular 0)) as L.
  split.
  - refine (proj2 (proj1 (L (Mock.emptyWriter 10))
              (Mock.mkWriter [Byte.x01; Byte.x02] None 8)
              (Mock.mkWriter [Byte.x01; Byte.x02; Byte.x2a] None 7)
              (Mock.mkWriter [Byte.x01; Byte.x02; Byte.x2a] (Some (2, 1)) 7)
              (RegularStateMachine.mk 0) [] 1 eq_refl eq_refl eq_refl) _).
    vm_compute. reflexivity.
  - refine (proj1 (proj2 (L (Mock.emptyWriter 1)))
              (Mock.mkWriter [Byte.x01] None 0) 1%Z eq_refl _).
    discriminate.
Defined.

(** A reader that cannot be opened: the error is returned and there is
    nothing to close. *)
Example RecoverFromSnapshot_open_error :
  NativeStateMachine.RecoverFromSnapshot "" [] (Mock.regular 0)
  = (Mock.regular 0, [ReaderOpen ""],
     Returned (Some (OtherError "no such file"))).
Proof. reflexivity. Qed.

Example RecoverFromSnapshot_sessions_error :
  NativeStateMachine.RecoverFromSnapshot "bad-sessions" [] (Mock.regular 0)
  = (Mock.regular 0,
     [ReaderOpen "bad-sessions"; ReaderGetHeader; ReaderValidateHeader;
      SessionsLoad; ReaderClose], Returned None).
Proof. reflexivity. Qed.

Example RecoverFromSnapshot_payload_error :
  NativeStateMachine.RecoverFromSnapshot "bad-payload" [] (Mock.regular 0)
  = (Mock.regular 0,
     [ReaderOpen "bad-payload"; ReaderGetHeader; ReaderValidateHeader;
      SessionsLoad; SmRecoverFromSnapshot; ReaderClose], Returned None).
Proof. reflexivity. Qed.

Example RecoverFromSnapshot_success :
  NativeStateMachine.RecoverFromSnapshot "snapshot" [] (Mock.regular 0)
  = (Mock.regular 0,
     [ReaderOpen "snapshot"; ReaderGetHeader; ReaderValidateHeader;
      SessionsLoad; SmRecoverFromSnapshot; ReaderValidatePayload; ReaderClose],
     Returned None).
Proof. reflexivity. Qed.

Lemma RecoverFromSnapshot_loses_error_witness :
  NativeStateMachine.RecoverFromSnapshot "bad-header" [] (Mock.regular 0)
  = (Mock.regular 0,
     [ReaderOpen "bad-header"; ReaderGetHeader; ReaderClose], Returned None).
Proof.
  exact (proj1 (RecoverFromSnapshot_loses_error
           (S := RegularStateMachine.t Mock.counter) "bad-header" []
           (Mock.regular 0)
           (Mock.mkReader true false false false)
           (Mock.mkReader true false false false) tt eq_refl)
           (OtherError "corrupted header")
           (Mock.mkReader true false false true) eq_refl eq_refl).
Defined.

(** * Offload tracker: which calls make it ready *)

Lemma settled_of_call (from : From) (cs : list status_call)
    (o : OffloadedStatus) :
  from = FromNodeHost \/ from = FromStepWorker \/ from = FromCommitWorker
  \/ from = FromSnapshotWorker ->
  In (CallSetOffloaded from) cs ->
  settled from (status_run cs o) = true.
Proof.
  intros Hfrom. revert o. induction cs as [|c cs IH]; intros o Hin.
  - destruct Hin.
  - simpl. destruct Hin as [-> | Hin]; [|now apply IH].
    simpl. apply settled_run, settled_after, SetOffloaded_returns, Hfrom.
Qed.

(** X1.  Whatever the tracker was, once a sequence of calls contains
    [SetOffloaded] for node-host and for each of the three workers, in any
    order and with any other calls in between (also calls that panic), the
    tracker is ready to destroy. *)
Theorem all_four_offloaded_ready (cs : list status_call)
    (o : OffloadedStatus) :
  In (CallSetOffloaded FromNodeHost) cs ->
  In (CallSetOffloaded FromStepWorker) cs ->
  In (CallSetOffloaded FromCommitWorker) cs ->
  In (CallSetOffloaded FromSnapshotWorker) cs ->
  readyToDestroy (status_run cs o) = true.
Proof.
  intros H0 H1 H2 H3.
  pose proof (settled_of_call FromNodeHost cs o ltac:(tauto) H0) as S0.
  pose proof (settled_of_call FromStepWorker cs o ltac:(tauto) H1) as S1.
  pose proof (settled_of_call FromCommitWorker cs o ltac:(tauto) H2) as S2.
  pose proof (settled_of_call FromSnapshotWorker cs o ltac:(tauto) H3) as S3.
  destruct (status_run cs o) as [[] ? [] [] [] [] ? ? ?];
    try reflexivity; discriminate.
Qed.

Lemma all_four_offloaded_ready_witness :
  readyToDestroy
    (status_run
       [CallSetOffloaded FromCommitWorker; CallSetLoaded FromStepWorker;
        CallSetOffloaded FromSnapshotWorker; CallSetOffloaded FromStepWorker;
        CallSetLoaded FromNodeHost; CallSetOffloaded FromNodeHost]
       zeroOffloadedStatus) = true.
Proof.
  apply all_four_offloaded_ready; simpl; tauto.
Defined.

(** The node-host flag is set by [SetOffloaded(FromNodeHost)] only. *)
Lemma nodehost_flag_origin (cs : list status_call) (o : OffloadedStatus) :
  offloadedFromNodeHost (status_run cs o) = true ->
  offloadedFromNodeHost o = true \/ In (CallSetOffloaded FromNodeHost) cs.
Proof.
  revert o. induction cs as [|c cs IH]; intros o Hf; simpl in *; [tauto|].
  destruct (IH _ Hf) as [Hs | Hin]; [|tauto].
  destruct c as [from | from |]; simpl in Hs.
  - left. from_cases from;
      [all_flags o; try discriminate; reflexivity .. |].
    rewrite SetLoaded_unknown in Hs by assumption. exact Hs.
  - from_cases from; [tauto | left .. |];
      [all_flags o; try discriminate; reflexivity .. |].
    rewrite SetOffloaded_unknown in Hs by assumption. left. exact Hs.
  - left. all_flags o; try discriminate; reflexivity.
Qed.

(** Once node-host has offloaded, no loaded-by flag changes. *)
Lemma loadedBy_frozen_step (w : From) (c : status_call) (o : OffloadedStatus) :
  offloadedFromNodeHost o = true ->
  loadedBy w (state_of (status_step c o)) = loadedBy w o.
Proof.
  intros Hnh. destruct c as [from | from |]; simpl.
  - from_cases from;
      [from_cases w;
         [all_flags o; try discriminate; reflexivity .. |];
         unfold loadedBy; rewrite Hsw, Hcw, Hnw; reflexivity .. |].
    now rewrite SetLoaded_unknown.
  - from_cases from;
      [from_cases w;
         [all_flags o; try discriminate; reflexivity .. |];
         unfold loadedBy; rewrite Hsw, Hcw, Hnw; reflexivity .. |].
    now rewrite SetOffloaded_unknown.
  - from_cases w; [all_flags o; reflexivity .. |].
    unfold loadedBy. now rewrite Hsw, Hcw, Hnw.
Qed.

Lemma nodehost_flag_kept (c : status_call) (o : OffloadedStatus) :
  offloadedFromNodeHost o = true ->
  offloadedFromNodeHost (state_of (status_step c o)) = true.
Proof.
  intros Hnh. pose proof (status_step_flags_le c o) as Hle.
  apply flags_le_spec in Hle. rewrite Forall_forall in Hle.
  apply (Hle offloadedFromNodeHost); [|exact Hnh].
  unfold flags. do 2 apply list_elem_of_further. apply list_elem_of_here.
Qed.

Lemma loadedBy_frozen (w : From) (cs : list status_call) (o : OffloadedStatus) :
  offloadedFromNodeHost o = true ->
  loadedBy w (status_run cs o) = loadedBy w o.
Proof.
  revert o. induction cs as [|c cs IH]; intros o Hnh; simpl; [reflexivity|].
  rewrite IH by now apply nodehost_flag_kept.
  now apply loadedBy_frozen_step.
Qed.

(** How a call can set the offloaded-from flag of a worker. *)
Lemma worker_flag_step (w : From) (c : status_call) (o : OffloadedStatus) :
  is_worker w = true ->
  offloadedFrom w (state_of (status_step c o)) = true ->
  offloadedFrom w o = true \/ c = CallSetOffloaded w
  \/ (offloadedFromNodeHost (state_of (status_step c o)) = true
      /\ loadedBy w (state_of (status_step c o)) = false).
Proof.
  intros Hw Hs.
  assert (Hwc : w = FromStepWorker \/ w = FromCommitWorker
                \/ w = FromSnapshotWorker).
  { from_cases w; try tauto; try discriminate.
    unfold is_worker in Hw. now rewrite Hsw, Hcw, Hnw in Hw. }
  clear Hw.
  destruct c as [from | from |]; simpl in *.
  - left. from_cases from.
    5: { rewrite SetLoaded_unknown in Hs by assumption. exact Hs. }
    all: destruct Hwc as [-> | [-> | ->]];
      all_flags o; try discriminate; reflexivity.
  - from_cases from.
    5: { rewrite SetOffloaded_unknown in Hs by assumption. left. exact Hs. }
    all: destruct Hwc as [-> | [-> | ->]]; try (right; left; reflexivity).
    all: all_flags o; try discriminate;
      first [ left; reflexivity | right; right; split; reflexivity ].
  - left. destruct Hwc as [-> | [-> | ->]];
      all_flags o; try discriminate; reflexivity.
Qed.

Lemma worker_flag_origin (w : From) (cs : list status_call)
    (o : OffloadedStatus) :
  is_worker w = true ->
  loadedBy w (status_run cs o) = true ->
  offloadedFrom w (status_run cs o) = true ->
  offloadedFrom w o = true \/ In (CallSetOffloaded w) cs.
Proof.
  intros Hw. revert o. induction cs as [|c cs IH]; intros o Hl Hf;
    simpl in *; [tauto|].
  destruct (IH _ Hl Hf) as [Hs | Hin]; [|tauto].
  destruct (worker_flag_step w c o Hw Hs) as [Ho | [-> | [Hnh Hnl]]];
    [tauto | tauto |].
  rewrite (loadedBy_frozen w cs _ Hnh), Hnl in Hl. discriminate.
Qed.

Lemma ready_needs_calls (cs : list status_call) :
  readyToDestroy (status_run cs zeroOffloadedStatus) = true ->
  In (CallSetOffloaded FromNodeHost) cs
  /\ forall w : From,
       is_worker w = true ->
       loadedBy w (status_run cs zeroOffloadedStatus) = true ->
       In (CallSetOffloaded w) cs.
Proof.
  intros Hr.
  pose proof (status_run_tracker_inv cs zeroOffloadedStatus eq_refl) as Hi.
  unfold tracker_inv in Hi. apply andb_true_iff in Hi. destruct Hi as [Hi _].
  apply eqb_prop in Hi. rewrite Hr in Hi. symmetry in Hi.
  unfold allOffloaded in Hi. rewrite !andb_true_iff in Hi.
  destruct Hi as (((Hnh & Hs) & Hc) & Hn). split.
  - destruct (nodehost_flag_origin cs _ Hnh) as [Hz | Hin];
      [discriminate | exact Hin].
  - intros w Hw Hl.
    assert (Hf : offloadedFrom w (status_run cs zeroOffloadedStatus) = true).
    { from_cases w; try assumption; try discriminate.
      unfold is_worker in Hw. now rewrite Hsw, Hcw, Hnw in Hw. }
    destruct (worker_flag_origin w cs _ Hw Hl Hf) as [Hz | Hin];
      [|exact Hin].
    from_cases w; try discriminate.
    unfold is_worker in Hw. now rewrite Hsw, Hcw, Hnw in Hw.
Qed.

(** X2.  A tracker that started from the zero value is ready to destroy
    only if node-host itself has called [SetOffloaded], and every worker
    whose loaded-by flag is set has itself called [SetOffloaded]: a worker
    that reported loading is never marked offloaded on node-host's word. *)
Theorem ready_only_after_offloads (cs : list status_call) (w : From) :
  readyToDestroy (status_run cs zeroOffloadedStatus) = true ->
  In (CallSetOffloaded FromNodeHost) cs
  /\ (is_worker w = true ->
      loadedBy w (status_run cs zeroOffloadedStatus) = true ->
      In (CallSetOffloaded w) cs).
Proof.
  intros Hr. destruct (ready_needs_calls cs Hr) as [Hnh Hw].
  split; [exact Hnh | apply Hw].
Qed.

Lemma ready_only_after_offloads_witness :
  In (CallSetOffloaded FromNodeHost)
     [CallSetLoaded FromStepWorker; CallSetOffloaded FromNodeHost;
      CallSetOffloaded FromStepWorker]
  /\ In (CallSetOffloaded FromStepWorker)
        [CallSetLoaded FromStepWorker; CallSetOffloaded FromNodeHost;
         CallSetOffloaded FromStepWorker].
Proof.
  destruct (ready_only_after_offloads
              [CallSetLoaded FromStepWorker; CallSetOffloaded FromNodeHost;
               CallSetOffloaded FromStepWorker] FromStepWorker eq_refl)
    as [Hnh Hw].
  split; [exact Hnh | apply Hw; reflexivity].
Defined.

Lemma is_worker_cases (from : From) :
  is_worker from = true ->
  from = FromStepWorker \/ from = FromCommitWorker
  \/ from = FromSnapshotWorker.
Proof.
  intros Hw. from_cases from; try tauto; try discriminate.
  unfold is_worker in Hw. now rewrite Hsw, Hcw, Hnw in Hw.
Qed.

(** X3.  [SetLoaded] returns exactly when the component is one of the
    three workers and node-host has not offloaded; [SetOffloaded] returns
    exactly when the component is node-host or one of the three workers.
    A call that does not return has stored nothing: the tracker is as it
    was. *)
Theorem tracker_call_outcome (from : From) (o : OffloadedStatus) :
  (outcome_of (SetLoaded from o) = Returned tt <->
   is_worker from = true /\ offloadedFromNodeHost o = false)
  /\ (outcome_of (SetOffloaded from o) = Returned tt <->
      from = FromNodeHost \/ is_worker from = true)
  /\ (outcome_of (SetLoaded from o) <> Returned tt ->
      state_of (SetLoaded from o) = o)
  /\ (outcome_of (SetOffloaded from o) <> Returned tt ->
      state_of (SetOffloaded from o) = o).
Proof.
  from_cases from.
  5: { rewrite SetLoaded_unknown, SetOffloaded_unknown by assumption.
       unfold is_worker. rewrite Hsw, Hcw, Hnw. simpl.
       repeat split; try discriminate; try tauto.
       - intros [H _]. discriminate.
       - intros [-> | H]; discriminate. }
  all: all_flags o; simpl; repeat split; intros;
    try reflexivity; try discriminate; try tauto; try congruence.
  all: try (destruct H; discriminate).
Qed.

Lemma tracker_call_outcome_witness :
  outcome_of (SetLoaded FromStepWorker zeroOffloadedStatus) = Returned tt
  /\ state_of (SetLoaded FromStepWorker
                 (state_of (SetOffloaded FromNodeHost zeroOffloadedStatus)))
     = state_of (SetOffloaded FromNodeHost zeroOffloadedStatus).
Proof.
  split.
  - apply (proj1 (tracker_call_outcome FromStepWorker zeroOffloadedStatus)).
    split; reflexivity.
  - apply (proj1 (proj2 (proj2 (tracker_call_outcome FromStepWorker
             (state_of (SetOffloaded FromNodeHost zeroOffloadedStatus)))))).
    discriminate.
Defined.

(** * Managed state machine: the lifecycle calls *)

Lemma status_run_app (cs1 cs2 : list status_call) (o : OffloadedStatus) :
  status_run (cs1 ++ cs2) o = status_run cs2 (status_run cs1 o).
Proof. revert o. induction cs1 as [|c cs1 IH]; intros o; simpl; auto. Qed.

Section LifecycleMore.
Context `{Collaborators} {S : Type} `{!IStateMachine.Methods S}.
Import NativeStateMachine.

(** X4.  [Loaded] and [Offloaded] call [Lock] first and [Unlock] last, with
    at most a [Close] of the adapter in between, whatever the outcome.
    When the call panics (unknown component, load reported by node-host or
    after node-host offloaded), the lock is released all the same, the
    adapter is not called, and the managed state machine is as it was. *)
Theorem lifecycle_call_locks (c : native_call) (ds : NativeStateMachine.t S) :
  (calls_of (native_step c ds) = [MuLock; MuUnlock]
   \/ calls_of (native_step c ds) = [MuLock; SmClose; MuUnlock])
  /\ (outcome_of (native_step c ds) <> Returned tt ->
      calls_of (native_step c ds) = [MuLock; MuUnlock]
      /\ state_of (native_step c ds) = ds).
Proof.
  destruct ds as [s o m]. destruct c as [from | from]; simpl.
  - rewrite Loaded_eq. simpl. split; [now left|]. intros Hp.
    split; [reflexivity|].
    destruct (tracker_call_outcome from o) as (_ & _ & Hl & _).
    unfold set_status. simpl. now rewrite Hl.
  - rewrite Offloaded_eq. simpl.
    destruct (tracker_call_outcome from o) as (_ & _ & _ & Ho).
    destruct (outcome_of (SetOffloaded from o)) as [[]|msg] eqn:Hout.
    + destruct (readyToDestroy _ && negb _); simpl;
        (split; [tauto | intros Hp; now contradiction Hp]).
    + simpl. split; [now left|]. intros _. split; [reflexivity|].
      unfold set_status. simpl. rewrite Ho; [reflexivity | discriminate].
Qed.

(** The tracker of the managed state machine after a lifecycle call is the
    tracker after the tracker calls it makes. *)
Lemma native_step_status (c : native_call) (ds : NativeStateMachine.t S) :
  status (state_of (native_step c ds))
  = status_run (tracker_calls c (status ds)) (status ds).
Proof.
  destruct ds as [s o m]. destruct c as [from | from]; simpl.
  - rewrite Loaded_eq. reflexivity.
  - rewrite Offloaded_eq. simpl.
    destruct (outcome_of (SetOffloaded from o)) as [[]|msg]; simpl;
      [|reflexivity].
    destruct (readyToDestroy (state_of (SetOffloaded from o))); simpl;
      [|reflexivity].
    destruct (destroyed (state_of (SetOffloaded from o))); reflexivity.
Qed.

Lemma native_run_status (cs : list native_call) (ds : NativeStateMachine.t S) :
  status (fst (native_run cs ds))
  = status_run (native_tracker_calls cs (status ds)) (status ds).
Proof.
  revert ds. induction cs as [|c cs IH]; intros ds; simpl; [reflexivity|].
  specialize (IH (state_of (native_step c ds))).
  destruct (native_run cs (state_of (native_step c ds))) as [ds' tr].
  simpl in *. now rewrite status_run_app, IH, native_step_status.
Qed.

Lemma tracker_calls_offload (from : From) (c : native_call)
    (o : OffloadedStatus) :
  In (CallSetOffloaded from) (tracker_calls c o) -> c = CallOffloaded from.
Proof.
  destruct c as [f | f]; simpl.
  - intros [[=] | []].
  - destruct (_ && _); simpl; intros [[= ->] | Hin]; try reflexivity.
    + destruct Hin as [[=] | []].
    + destruct Hin.
Qed.

Lemma native_tracker_calls_offload (from : From) (cs : list native_call)
    (o : OffloadedStatus) :
  In (CallSetOffloaded from) (native_tracker_calls cs o) ->
  In (CallOffloaded from) cs.
Proof.
  revert o. induction cs as [|c cs IH]; intros o; simpl; [tauto|].
  rewrite in_app_iff. intros [Hc | Hcs].
  - left. now apply (tracker_calls_offload from c o).
  - right. now apply (IH _ Hcs).
Qed.

(** The adapter and the sessions after a lifecycle call. *)
Lemma native_step_sm (c : native_call) (ds : NativeStateMachine.t S) :
  native_inv ds = true ->
  sm (state_of (native_step c ds))
  = (if readyToDestroy (status (state_of (native_step c ds)))
        && negb (readyToDestroy (status ds))
     then fst (IStateMachine.Close (sm ds)) else sm ds)
  /\ manager (state_of (native_step c ds)) = manager ds.
Proof.
  destruct ds as [s o m]. unfold native_inv. simpl.
  destruct c as [from | from]; simpl.
  - rewrite Loaded_eq. simpl.
    from_cases from;
      [all_flags o; try discriminate; intros _; split; reflexivity .. |].
    rewrite SetLoaded_unknown by assumption. simpl.
    all_flags o; try discriminate; intros _; split; reflexivity.
  - rewrite Offloaded_eq. simpl.
    from_cases from;
      [all_flags o; try discriminate; intros _; split; reflexivity .. |].
    rewrite SetOffloaded_unknown by assumption. simpl.
    all_flags o; try discriminate; intros _; split; reflexivity.
Qed.

Lemma native_run_sm (cs : list native_call) (ds : NativeStateMachine.t S) :
  native_inv ds = true ->
  sm (fst (native_run cs ds))
  = (if readyToDestroy (status (fst (native_run cs ds)))
        && negb (readyToDestroy (status ds))
     then fst (IStateMachine.Close (sm ds)) else sm ds)
  /\ manager (fst (native_run cs ds)) = manager ds.
Proof.
  revert ds. induction cs as [|c cs IH]; intros ds Hds; simpl.
  - split; [|reflexivity].
    now destruct (readyToDestroy (status ds)).
  - destruct (native_step_inv c ds Hds) as (Hi & Hm & _).
    destruct (native_step_sm c ds Hds) as [Hs Hg].
    destruct (native_run_inv cs _ Hi) as (_ & Hm' & _).
    destruct (IH _ Hi) as [Hs' Hg'].
    destruct (native_run cs (state_of (native_step c ds))) as [ds' tr].
    simpl in *. rewrite Hs', Hg', Hs, Hg. split; [|reflexivity].
    destruct (readyToDestroy (status ds)),
      (readyToDestroy (status (state_of (native_step c ds)))),
      (readyToDestroy (status ds')); try discriminate; reflexivity.
Qed.
End LifecycleMore.

Lemma lifecycle_call_locks_witness :
  calls_of (native_step (S := RegularStateMachine.t Mock.counter)
              (CallLoaded FromNodeHost) (Mock.regular 0))
  = [MuLock; MuUnlock]
  /\ state_of (native_step (S := RegularStateMachine.t Mock.counter)
                 (CallLoaded FromNodeHost) (Mock.regular 0))
     = Mock.regular 0.
Proof.
  apply (proj2 (lifecycle_call_locks (S := RegularStateMachine.t Mock.counter)
                  (CallLoaded FromNodeHost) (Mock.regular 0))).
  discriminate.
Defined.

(** X5.  On a managed state machine made by [NewNativeStateMachine], after
    any sequence of [Loaded] and [Offloaded] calls: [destroyed] is set
    exactly when [readyToDestroy] is, so a tracker that is ready and not
    destroyed is never left behind by a call; the adapter is the one given
    at creation, closed if the tracker is ready and untouched otherwise;
    and the session manager is the one given at creation. *)
Theorem lifecycle_state (C : Collaborators) (S : Type)
    (A : IStateMachine.Methods S) (s : S) (sessions : lrusession)
    (cs : list native_call) :
  let ds := fst (native_run cs
                   (NativeStateMachine.NewNativeStateMachine s sessions)) in
  destroyed (NativeStateMachine.status ds)
  = readyToDestroy (NativeStateMachine.status ds)
  /\ NativeStateMachine.sm ds
     = (if readyToDestroy (NativeStateMachine.status ds)
        then fst (IStateMachine.Close s) else s)
  /\ NativeStateMachine.manager ds = SessionManager.mk sessions.
Proof.
  intros ds.
  destruct (native_run_inv cs _ (New_inv s sessions)) as (Hi & _ & _).
  destruct (native_run_sm cs _ (New_inv s sessions)) as [Hs Hm].
  fold ds in Hi, Hs, Hm. unfold native_inv in Hi.
  apply andb_true_iff in Hi. destruct Hi as [_ Hd]. apply eqb_prop in Hd.
  split; [exact Hd | split; [|exact Hm]].
  rewrite Hs. simpl. now rewrite andb_true_r.
Qed.

(** X6.  On a managed state machine made by [NewNativeStateMachine], the
    adapter's [Close] is called by a sequence of [Loaded] and [Offloaded]
    calls only if [Offloaded(FromNodeHost)] is among them, and
    [Offloaded] of every worker whose loaded-by flag is set is among them
    too: the state machine is not closed under a worker that reported
    loading and has not offloaded. *)
Theorem close_only_after_offloads (C : Collaborators) (S : Type)
    (A : IStateMachine.Methods S) (s : S) (sessions : lrusession)
    (cs : list native_call) (w : From) :
  let r := native_run cs (NativeStateMachine.NewNativeStateMachine s sessions) in
  count_calls is_SmClose (snd r) <> 0%nat ->
  In (CallOffloaded FromNodeHost) cs
  /\ (is_worker w = true ->
      loadedBy w (NativeStateMachine.status (fst r)) = true ->
      In (CallOffloaded w) cs).
Proof.
  intros r Hclose. subst r.
  destruct (native_run_inv cs _ (New_inv s sessions)) as (_ & _ & Hc).
  rewrite Hc in Hclose. unfold closes_expected in Hclose.
  destruct (readyToDestroy _) eqn:Hr in Hclose; [|now contradiction Hclose].
  clear Hclose Hc. rewrite native_run_status in *. simpl in *.
  destruct (ready_needs_calls _ Hr) as [Hnh Hw].
  split.
  - now apply (native_tracker_calls_offload _ _ _ Hnh).
  - intros Hwk Hl.
    now apply (native_tracker_calls_offload _ _ _ (Hw w Hwk Hl)).
Qed.

Lemma close_only_after_offloads_witness :
  In (CallOffloaded FromNodeHost)
     [CallLoaded FromStepWorker; CallOffloaded FromNodeHost;
      CallOffloaded FromStepWorker]
  /\ In (CallOffloaded FromStepWorker)
        [CallLoaded FromStepWorker; CallOffloaded FromNodeHost;
         CallOffloaded FromStepWorker].
Proof.
  assert (Hc : count_calls is_SmClose
                 (snd (native_run (S := RegularStateMachine.t Mock.counter)
                         [CallLoaded FromStepWorker; CallOffloaded FromNodeHost;
                          CallOffloaded FromStepWorker]
                         (NativeStateMachine.NewNativeStateMachine
                            (RegularStateMachine.mk 0) tt))) <> 0%nat)
    by (vm_compute; discriminate).
  destruct (close_only_after_offloads Mock.collaborators
              (RegularStateMachine.t Mock.counter) _
              (RegularStateMachine.mk 0) tt
              [CallLoaded FromStepWorker; CallOffloaded FromNodeHost;
               CallOffloaded FromStepWorker] FromStepWorker Hc) as [Hnh Hw].
  split; [exact Hnh | apply Hw; reflexivity].
Defined.

(** * Managed state machine over the two adapters *)

(** X7.  Over a [RegularStateMachine], [Lookup] never panics and fails
    only with [ErrClusterClosed], exactly when the instance is destroyed;
    otherwise it returns what the user state machine's [Lookup] returned.
    It leaves the tracker and the session manager as they are. *)
Theorem Lookup_sequential (C : Collaborators) (U : Type)
    (Um : sm.IStateMachine.Methods U) (query : bytes)
    (ds : NativeStateMachine.t (RegularStateMachine.t U)) :
  exists (v : bytes) (e : error),
    outcome_of (NativeStateMachine.Lookup query ds) = Returned (v, e)
    /\ (e <> None <-> destroyed (NativeStateMachine.status ds) = true)
    /\ (e <> None -> e = Some ErrClusterClosed /\ v = [])
    /\ (e = None ->
        v = snd (sm.IStateMachine.Lookup query
                   (RegularStateMachine.sm (NativeStateMachine.sm ds))))
    /\ NativeStateMachine.status (state_of (NativeStateMachine.Lookup query ds))
       = NativeStateMachine.status ds
    /\ NativeStateMachine.manager (state_of (NativeStateMachine.Lookup query ds))
       = NativeStateMachine.manager ds.
Proof.
  rewrite Lookup_eq. destruct ds as [[u] o m]. simpl.
  destruct (destroyed o) eqn:Hd.
  - exists [], (Some ErrClusterClosed). simpl.
    repeat split; auto; try discriminate.
  - unfold RegularStateMachine.Lookup, RegularStateMachine.on_sm. simpl.
    destruct (sm.IStateMachine.Lookup query u) as [u' v]. simpl.
    exists v, None. repeat split; auto; intros; try discriminate;
      try contradiction; congruence.
Qed.

Lemma Lookup_sequential_witness :
  exists (v : bytes) (e : error),
    outcome_of (NativeStateMachine.Lookup [] (Mock.regular 3)) = Returned (v, e)
    /\ e = None.
Proof.
  destruct (Lookup_sequential Mock.collaborators Mock.counter _ []
              (Mock.regular 3)) as (v & e & Ho & Hiff & _).
  exists v, e. split; [exact Ho|].
  destruct e as [x|]; [|reflexivity].
  assert (Hd : destroyed (NativeStateMachine.status (Mock.regular 3)) = true)
    by (apply (proj1 Hiff); discriminate).
  discriminate Hd.
Defined.

(** X8.  Over a [RegularStateMachine], [Update] with a session that does
    not retain a result for the series ID (or with no session) always
    returns: the adapter hands back the single entry, so the length check
    passes.  The result is the one the user state machine's [Update] gave
    for [data]; the user state is the one it left; the result is stored in
    the session under the series ID. *)
Theorem Update_sequential (C : Collaborators) (U : Type)
    (Um : sm.IStateMachine.Methods U) (seriesID index term : N) (data : bytes)
    (ds : NativeStateMachine.t (RegularStateMachine.t U))
    (session : option Session) :
  not_retained seriesID session ->
  let u := RegularStateMachine.sm (NativeStateMachine.sm ds) in
  let result := snd (sm.IStateMachine.Update data u) in
  NativeStateMachine.Update seriesID index term data (ds, session)
  = ((NativeStateMachine.set_sm
        (RegularStateMachine.mk (fst (sm.IStateMachine.Update data u))) ds,
      after_update seriesID result session),
     [SmUpdate [mkEntry index data 0]], Returned result).
Proof.
  intros Hnr u result. rewrite Update_applies by assumption.
  simpl. unfold RegularStateMachine.Update, RegularStateMachine.on_sm, bind,
    total, ret. simpl. fold u.
  subst result. destruct (sm.IStateMachine.Update data u) as [u' r].
  reflexivity.
Qed.

Lemma Update_sequential_witness :
  NativeStateMachine.Update (S := RegularStateMachine.t Mock.counter)
    4 9 1 [Byte.x01; Byte.x02; Byte.x03] (Mock.regular 10, None)
  = ((NativeStateMachine.set_sm (RegularStateMachine.mk 13) (Mock.regular 10),
      None),
     [SmUpdate [mkEntry 9 [Byte.x01; Byte.x02; Byte.x03] 0]], Returned 13).
Proof.
  exact (Update_sequential Mock.collaborators Mock.counter _ 4 9 1
           [Byte.x01; Byte.x02; Byte.x03] (Mock.regular 10) None I).
Defined.

Section UpdateMore.
Context `{Collaborators} {S : Type} `{!IStateMachine.Methods S}.
Import NativeStateMachine.

(** What a returning [Update] has done to the session. *)
Lemma Update_returned (seriesID index term r : N) (data : bytes)
    (ds ds' : NativeStateMachine.t S) (s : Session) (session' : option Session)
    (tr : list call) :
  Update seriesID index term data (ds, Some s)
  = ((ds', session'), tr, Returned r) ->
  results s !! seriesID = None /\ session' = Some (recorded seriesID r s).
Proof.
  intros Hu. destruct (results s !! seriesID) as [v|] eqn:Hv.
  - rewrite (Update_retained _ _ _ v) in Hu by assumption. discriminate.
  - split; [reflexivity|].
    rewrite Update_applies in Hu by exact Hv.
    destruct (IStateMachine.Update _ (sm ds)) as [[s1 t1] [rs|msg]];
      [|discriminate].
    destruct rs as [|r0 [|r1 rs]]; try discriminate.
    simpl in Hu. now injection Hu as _ <- _ <-.
Qed.

(** X9.  When [Update] with a session returns a result, the session then
    retains that result under the series ID and everything else of the
    session is as before; the dedup check on it gives the result back
    with no update required (for a series ID above [respondedTo]); and
    [Update] with the same series ID again, on any managed state machine,
    panics without calling the adapter. *)
Theorem Update_then_dedup (seriesID index term r : N) (data : bytes)
    (ds ds' : NativeStateMachine.t S) (s : Session) (session' : option Session)
    (tr : list call) :
  Update seriesID index term data (ds, Some s)
  = ((ds', session'), tr, Returned r) ->
  exists s' : Session,
    session' = Some s'
    /\ getResponse seriesID s' = (r, true)
    /\ ClientID s' = ClientID s /\ respondedTo s' = respondedTo s
    /\ (forall id : N, id <> seriesID -> results s' !! id = results s !! id)
    /\ (respondedTo s < seriesID ->
        SessionManager.UpdateRequired s' seriesID = (r, false, false))
    /\ (forall (index' term' : N) (data' : bytes)
               (ds'' : NativeStateMachine.t S),
          Update seriesID index' term' data' (ds'', Some s')
          = ((ds'', Some s'), [], Panicked "already has response in session")).
Proof.
  intros Hu. destruct (Update_returned _ _ _ _ _ _ _ _ _ _ Hu) as [Hn ->].
  exists (recorded seriesID r s).
  assert (Hl : results (recorded seriesID r s) !! seriesID = Some r)
    by (unfold recorded; simpl; apply lookup_insert_eq).
  split; [reflexivity|]. split.
  { unfold getResponse. now rewrite Hl. }
  split; [reflexivity|]. split; [reflexivity|]. split.
  { intros id Hid. unfold recorded. simpl. now rewrite lookup_insert_ne. }
  split.
  - intros Hlt. apply N.leb_gt in Hlt.
    unfold SessionManager.UpdateRequired, hasResponded, getResponse.
    change (respondedTo (recorded seriesID r s)) with (respondedTo s).
    now rewrite Hlt, Hl.
  - intros index' term' data' ds''. now apply (Update_retained _ _ _ r).
Qed.
End UpdateMore.

Lemma Update_then_dedup_witness :
  exists s' : Session,
    getResponse 1 s' = (42, true)
    /\ SessionManager.UpdateRequired s' 1 = (42, false, false).
Proof.
  assert (Hu : NativeStateMachine.Update
                 (S := RegularStateMachine.t Mock.counter)
                 1 5 1 [Byte.x01; Byte.x02]
                 (Mock.regular 40, Some (mkSession 7 0 ∅))
               = ((NativeStateMachine.set_sm (RegularStateMachine.mk 42)
                     (Mock.regular 40),
                   Some (recorded 1 42 (mkSession 7 0 ∅))),
                  [SmUpdate [mkEntry 5 [Byte.x01; Byte.x02] 0]], Returned 42)).
  { rewrite Update_applies by reflexivity. reflexivity. }
  destruct (Update_then_dedup (S := RegularStateMachine.t Mock.counter)
              1 5 1 42 [Byte.x01; Byte.x02] (Mock.regular 40)
              (NativeStateMachine.set_sm (RegularStateMachine.mk 42)
                 (Mock.regular 40))
              (mkSession 7 0 ∅) (Some (recorded 1 42 (mkSession 7 0 ∅)))
              [SmUpdate [mkEntry 5 [Byte.x01; Byte.x02] 0]] Hu)
    as (s' & _ & Hg & _ & _ & _ & Hreq & _).
  exists s'. split; [exact Hg | apply Hreq; simpl; lia].
Defined.

(** * Session manager: the dedup protocol *)

(** X10.  When the dedup check says that the update must be applied,
    [MustHaveClientSeries] returns and [AddResponse] stores the result;
    after that the dedup check gives the stored result with no update
    required, and both [MustHaveClientSeries] and a second [AddResponse]
    for the series ID panic, leaving the session as it is. *)
Theorem dedup_protocol (s : Session) (seriesID result : N) :
  snd (SessionManager.UpdateRequired s seriesID) = true ->
  SessionManager.MustHaveClientSeries seriesID s = (s, [], Returned tt)
  /\ SessionManager.AddResponse seriesID result s
     = (recorded seriesID result s, [], Returned tt)
  /\ SessionManager.UpdateRequired (recorded seriesID result s) seriesID
     = (result, false, false)
  /\ SessionManager.MustHaveClientSeries seriesID (recorded seriesID result s)
     = (recorded seriesID result s, [],
        Panicked "already has response in session")
  /\ (forall result' : N,
        SessionManager.AddResponse seriesID result' (recorded seriesID result s)
        = (recorded seriesID result s, [],
           Panicked "adding a duplicated response")).
Proof.
  unfold SessionManager.UpdateRequired, SessionManager.MustHaveClientSeries,
    SessionManager.AddResponse, addResponse, hasResponded, getResponse,
    bind, get, modify, ret, panic.
  change (respondedTo (recorded seriesID result s)) with (respondedTo s).
  assert (Hl : results (recorded seriesID result s) !! seriesID = Some result)
    by (unfold recorded; simpl; apply lookup_insert_eq).
  rewrite Hl.
  destruct (seriesID <=? respondedTo s); [discriminate|].
  destruct (results s !! seriesID); [discriminate|].
  intros _. repeat split.
Qed.

Lemma dedup_protocol_witness :
  SessionManager.UpdateRequired (recorded 6 9 (mkSession 7 3 {[ 5 := 42 ]})) 6
  = (9, false, false).
Proof.
  refine (proj1 (proj2 (proj2 (dedup_protocol (mkSession 7 3 {[ 5 := 42 ]})
                                  6 9 _)))).
  reflexivity.
Defined.

Section UpdateTracker.
Context `{Collaborators} {S : Type} `{!IStateMachine.Methods S}.
Import NativeStateMachine.

Lemma BatchedUpdate_eq (ents : list Entry) (ds : NativeStateMachine.t S) :
  BatchedUpdate ents ds =
  match IStateMachine.Update ents (sm ds) with
  | (s1, tr, Panicked msg) => (set_sm s1 ds, SmUpdate ents :: tr, Panicked msg)
  | (s1, tr, Returned rs) =>
      (set_sm s1 ds, SmUpdate ents :: tr,
       if (length rs =? length ents)%nat then Returned rs
       else Panicked "unexpected result length")
  end.
Proof.
  unfold BatchedUpdate, on_sm, zoom, bind, emit, ret, panic. simpl.
  destruct (IStateMachine.Update ents (sm ds)) as [[s1 tr] [rs|msg]]; simpl;
    [|reflexivity].
  destruct (length rs =? length ents)%nat; simpl; now rewrite ?app_nil_r.
Qed.


(** X12.  When [BatchedUpdate] returns, it returns the batch the adapter
    returned, and that batch has as many entries as the batch given.  When
    the adapter returns a batch of another length, [BatchedUpdate] panics,
    but the adapter has already applied the batch: its state is the one
    its [Update] left. *)
Theorem BatchedUpdate_length (ents : list Entry)
    (ds : NativeStateMachine.t S) :
  (forall rs : list Entry,
     outcome_of (BatchedUpdate ents ds) = Returned rs ->
     length rs = length ents
     /\ outcome_of (IStateMachine.Update ents (sm ds)) = Returned rs)
  /\ (forall (s1 : S) (tr : list call) (rs : list Entry),
        IStateMachine.Update ents (sm ds) = (s1, tr, Returned rs) ->
        length rs <> length ents ->
        BatchedUpdate ents ds
        = (set_sm s1 ds, SmUpdate ents :: tr,
           Panicked "unexpected result length")).
Proof.
  rewrite BatchedUpdate_eq. split.
  - intros rs.
    destruct (IStateMachine.Update ents (sm ds)) as [[s1 tr] [rs'|msg]];
      simpl; [|discriminate].
    destruct (Nat.eqb_spec (length rs') (length ents)) as [Hl|Hl];
      [|discriminate].
    intros [= <-]. split; [exact Hl | reflexivity].
  - intros s1 tr rs -> Hl.
    apply Nat.eqb_neq in Hl. now rewrite Hl.
Qed.
End UpdateTracker.

Lemma BatchedUpdate_length_witness :
  NativeStateMachine.BatchedUpdate (S := ConcurrentStateMachine.t Mock.scripted)
    [mkEntry 1 [] 0; mkEntry 2 [] 0]
    (Mock.concurrent (Mock.mkScripted [mkEntry 1 [] 8] (0, None)))
  = (Mock.concurrent (Mock.mkScripted [mkEntry 1 [] 8] (0, None)),
     [SmUpdate [mkEntry 1 [] 0; mkEntry 2 [] 0]],
     Panicked "unexpected result length").
Proof.
  refine (proj2 (BatchedUpdate_length
            (S := ConcurrentStateMachine.t Mock.scripted)
            [mkEntry 1 [] 0; mkEntry 2 [] 0]
            (Mock.concurrent (Mock.mkScripted [mkEntry 1 [] 8] (0, None))))
            (ConcurrentStateMachine.mk (Mock.mkScripted [mkEntry 1 [] 8] (0, None)))
            [] [mkEntry 1 [] 8] eq_refl _).
  simpl. lia.
Defined.

(** X13.  Over a [RegularStateMachine], [BatchedUpdate] takes a batch of
    exactly one entry: on any other batch the adapter panics and nothing is
    applied; on a batch of one entry the entry comes back with the result
    of the user state machine's [Update] on its command. *)
Theorem BatchedUpdate_sequential (C : Collaborators) (U : Type)
    (Um : sm.IStateMachine.Methods U) (ents : list Entry)
    (ds : NativeStateMachine.t (RegularStateMachine.t U)) :
  (length ents <> 1%nat ->
   NativeStateMachine.BatchedUpdate ents ds
   = (ds, [SmUpdate ents], Panicked "len(entries) != 1"))
  /\ (forall e : Entry, ents = [e] ->
      let u := RegularStateMachine.sm (NativeStateMachine.sm ds) in
      NativeStateMachine.BatchedUpdate ents ds
      = (NativeStateMachine.set_sm
           (RegularStateMachine.mk (fst (sm.IStateMachine.Update (Cmd e) u)))
           ds,
         [SmUpdate [e]],
         Returned [withResult (snd (sm.IStateMachine.Update (Cmd e) u)) e])).
Proof.
  split.
  - intros Hl. rewrite BatchedUpdate_eq. simpl.
    unfold RegularStateMachine.Update.
    apply Nat.eqb_neq in Hl. rewrite Hl. simpl.
    destruct ds as [s o m]. reflexivity.
  - intros e -> u. rewrite BatchedUpdate_eq. simpl.
    unfold RegularStateMachine.Update, RegularStateMachine.on_sm, bind, total,
      ret. simpl. fold u.
    destruct (sm.IStateMachine.Update (Cmd e) u) as [u' r]. reflexivity.
Qed.

Lemma BatchedUpdate_sequential_witness :
  NativeStateMachine.BatchedUpdate (S := RegularStateMachine.t Mock.counter)
    [mkEntry 1 [] 0; mkEntry 2 [] 0] (Mock.regular 0)
  = (Mock.regular 0, [SmUpdate [mkEntry 1 [] 0; mkEntry 2 [] 0]],
     Panicked "len(entries) != 1").
Proof.
  apply (proj1 (BatchedUpdate_sequential Mock.collaborators Mock.counter _
                  [mkEntry 1 [] 0; mkEntry 2 [] 0] (Mock.regular 0))).
  simpl. lia.
Defined.

(** * Snapshots: the failure paths *)

Section SaveMore.
Context `{Collaborators} {S : Type} `{!IStateMachine.Methods S}.
Import NativeStateMachine.

Lemma SaveSessions_eq (ds : NativeStateMachine.t S) (w : SnapshotWriter) :
  SaveSessions (ds, w) =
  match lrusession_save (SessionManager.sessions (manager ds), w) with
  | (l, w1, (smsz, Some e)) =>
      ((set_manager (SessionManager.mk l) ds, w1), [], Returned (0, Some e))
  | (l, w1, (smsz, None)) =>
      ((set_manager (SessionManager.mk l) ds, w1), [], Returned (smsz, None))
  end.
Proof.
  unfold SaveSessions, SessionManager.SaveSessions, zoom, bind, total, ret.
  simpl.
  destruct (lrusession_save (SessionManager.sessions (manager ds), w))
    as [[l w1] [smsz [e|]]]; reflexivity.
Qed.

(** X14.  [SaveSnapshot] and [SaveSessions] return size 0 with every
    error.  When [Write] of the session section returns an error, the
    adapter is not called and no header is saved, whatever the byte count
    reported; when [SaveHeader] returns an error after both sections were
    written, that error is returned, the adapter's state being the one its
    save left. *)
Theorem SaveSnapshot_errors (ssctx : option SnapshotContext) (session : bytes)
    (collection : ISnapshotFileCollection) (ds : NativeStateMachine.t S)
    (w : SnapshotWriter) :
  let smsz := N.of_nat (length session) in
  (forall (n : N) (e : err),
     outcome_of (SaveSnapshot ssctx session collection (ds, w))
     = Returned (n, Some e) -> n = 0)
  /\ (forall (n : N) (e : err),
        outcome_of (SaveSessions (ds, w)) = Returned (n, Some e) -> n = 0)
  /\ (forall (w1 : SnapshotWriter) (n : Z) (e : err),
        writer_Write session w = (w1, (n, Some e)) ->
        SaveSnapshot ssctx session collection (ds, w)
        = ((ds, w1), [WriterWrite session], Returned (0, Some e)))
  /\ (forall (w1 w2 w3 : SnapshotWriter) (s1 : S) (tr : list call) (sz : N)
             (e : err),
        writer_Write session w = (w1, (Z.of_nat (length session), None)) ->
        IStateMachine.SaveSnapshot ssctx collection (sm ds, w1)
        = ((s1, w2), tr, Returned (sz, None)) ->
        writer_SaveHeader smsz sz w2 = (w3, Some e) ->
        SaveSnapshot ssctx session collection (ds, w)
        = ((set_sm s1 ds, w3),
           WriterWrite session :: SmSaveSnapshot :: tr
             ++ [WriterSaveHeader smsz sz],
           Returned (0, Some e))).
Proof.
  intros smsz. split; [|split; [|split]].
  - intros n e. rewrite SaveSnapshot_eq. fold smsz.
    destruct (writer_Write session w) as [w1 [k [e1|]]]; simpl;
      [now intros [= <- _]|].
    destruct (k =? Z.of_nat (length session))%Z; simpl;
      [|now intros [= <- _]].
    destruct (IStateMachine.SaveSnapshot ssctx collection (sm ds, w1))
      as [[[s1 w2] tr] [[sz [e2|]]|msg]]; simpl;
      [now intros [= <- _] | | discriminate].
    destruct (writer_SaveHeader smsz sz w2) as [w3 [e3|]]; simpl;
      [now intros [= <- _] | discriminate].
  - intros n e. rewrite SaveSessions_eq.
    destruct (lrusession_save _) as [[l w1] [k [e1|]]]; simpl;
      [now intros [= <- _] | discriminate].
  - intros w1 n e Hw. now rewrite SaveSnapshot_eq, Hw.
  - intros w1 w2 w3 s1 tr sz e Hw Ha Hh.
    rewrite SaveSnapshot_eq, Hw, Z.eqb_refl, Ha. fold smsz. now rewrite Hh.
Qed.
End SaveMore.

Lemma SaveSnapshot_errors_witness :
  @NativeStateMachine.SaveSnapshot MockStore.collaborators
    (RegularStateMachine.t N) MockStore.adapter None [Byte.x01] tt
    (MockStore.regular 0 ∅, Mock.emptyWriter 0)
  = ((MockStore.regular 0 ∅, Mock.emptyWriter 0), [WriterWrite [Byte.x01]],
     Returned (0, Some (OtherError "no space left on device"))).
Proof.
  refine (proj1 (proj2 (proj2
            (@SaveSnapshot_errors MockStore.collaborators
               (RegularStateMachine.t N) MockStore.adapter None [Byte.x01] tt
               (MockStore.regular 0 ∅) (Mock.emptyWriter 0))))
            (Mock.emptyWriter 0) 0%Z (OtherError "no space left on device") _).
  reflexivity.
Defined.

(** X15.  Over a [ConcurrentStateMachine], [PrepareSnapshot] never panics:
    it makes one call on the adapter and returns what the user state
    machine's [PrepareSnapshot] returned; and [SaveSnapshot] never panics,
    whatever the snapshot context. *)
Theorem snapshot_concurrent (C : Collaborators) (U : Type)
    (Um : sm.IConcurrentStateMachine.Methods U)
    (ds : NativeStateMachine.t (ConcurrentStateMachine.t U)) :
  let u := ConcurrentStateMachine.sm (NativeStateMachine.sm ds) in
  NativeStateMachine.PrepareSnapshot ds
  = (NativeStateMachine.set_sm
       (ConcurrentStateMachine.mk
          (fst (sm.IConcurrentStateMachine.PrepareSnapshot u))) ds,
     [SmPrepareSnapshot],
     Returned (snd (sm.IConcurrentStateMachine.PrepareSnapshot u)))
  /\ forall (ssctx : option SnapshotContext) (session : bytes)
            (collection : ISnapshotFileCollection) (w : SnapshotWriter),
       panicked (outcome_of (NativeStateMachine.SaveSnapshot ssctx session
                               collection (ds, w))) = false.
Proof.
  intros u. split.
  - unfold NativeStateMachine.PrepareSnapshot,
      NativeStateMachine.ConcurrentSnapshot, NativeStateMachine.on_sm, zoom,
      bind, get, ret, emit. simpl.
    unfold ConcurrentStateMachine.PrepareSnapshot,
      ConcurrentStateMachine.on_sm, total. fold u.
    destruct (sm.IConcurrentStateMachine.PrepareSnapshot u) as [u' r].
    reflexivity.
  - intros ssctx session collection w. rewrite SaveSnapshot_eq.
    destruct (writer_Write session w) as [w1 [k [e1|]]]; simpl;
      [reflexivity|].
    destruct (k =? Z.of_nat (length session))%Z; simpl; [|reflexivity].
    unfold ConcurrentStateMachine.SaveSnapshot,
      ConcurrentStateMachine.on_sm_io, total. simpl.
    destruct (sm.IConcurrentStateMachine.SaveSnapshot ssctx collection _)
      as [[u' w2] [sz [e2|]]]; simpl; [reflexivity|].
    destruct (writer_SaveHeader _ sz w2) as [w3 [e3|]]; reflexivity.
Qed.

Section RecoverMore.
Context `{Collaborators} {S : Type} `{!IStateMachine.Methods S}.
Import NativeStateMachine.

Ltac recover_unfold' :=
  unfold RecoverFromSnapshot, with_local, defer_assign, on_sm_io, on_arg,
    SessionManager.LoadSessions, zoom, bind, emit, total, partial, ret.

(** X16.  When every stage succeeds, [RecoverFromSnapshot] has called, in
    this order, the header read, the header validation, the session load,
    the adapter's recovery, the payload validation and [Close]; the
    session store and the adapter are the restored ones; and the error
    returned is the one [Close] returned, nil or not. *)
Theorem RecoverFromSnapshot_all_stages (fp : string) (files : list SnapshotFile)
    (ds : NativeStateMachine.t S) (reader r1 r2 r3 r4 r5 r6 : SnapshotReader)
    (header : SnapshotHeader) (l : lrusession) (s1 : S) (ec : error) :
  NewSnapshotReader fp = (reader, None) ->
  reader_GetHeader reader = (r1, (header, None)) ->
  reader_ValidateHeader header r1 = (r2, Returned tt) ->
  lrusession_load (SessionManager.sessions (manager ds), r2) = (l, r3, None) ->
  IStateMachine.RecoverFromSnapshot files (sm ds, r3) = (s1, r4, None) ->
  reader_ValidatePayload header r4 = (r5, Returned tt) ->
  reader_Close r5 = (r6, ec) ->
  RecoverFromSnapshot fp files ds
  = (set_sm s1 (set_manager (SessionManager.mk l) ds),
     [ReaderOpen fp; ReaderGetHeader; ReaderValidateHeader; SessionsLoad;
      SmRecoverFromSnapshot; ReaderValidatePayload; ReaderClose],
     Returned ec).
Proof.
  intros Ho Hh Hv Hl Hr Hp Hc. recover_unfold'. rewrite Ho. simpl.
  rewrite Hh. simpl. rewrite Hv. simpl. rewrite Hl. simpl. rewrite Hr. simpl.
  rewrite Hp. simpl. rewrite Hc. reflexivity.
Qed.

(** X17.  A header validation that panics leaves the session store and the
    adapter untouched; a payload validation that panics comes after both
    were restored, and leaves them restored.  In both cases the reader is
    closed before the panic goes on, and the result of [Close] is lost. *)
Theorem RecoverFromSnapshot_validation_panics (fp : string)
    (files : list SnapshotFile) (ds : NativeStateMachine.t S)
    (reader r1 : SnapshotReader) (header : SnapshotHeader) (msg : string) :
  NewSnapshotReader fp = (reader, None) ->
  reader_GetHeader reader = (r1, (header, None)) ->
  (forall (r2 r3 : SnapshotReader) (ec : error),
     reader_ValidateHeader header r1 = (r2, Panicked msg) ->
     reader_Close r2 = (r3, ec) ->
     RecoverFromSnapshot fp files ds
     = (ds, [ReaderOpen fp; ReaderGetHeader; ReaderValidateHeader; ReaderClose],
        Panicked msg))
  /\ (forall (r2 r3 r4 r5 r6 : SnapshotReader) (l : lrusession) (s1 : S)
             (ec : error),
        reader_ValidateHeader header r1 = (r2, Returned tt) ->
        lrusession_load (SessionManager.sessions (manager ds), r2)
        = (l, r3, None) ->
        IStateMachine.RecoverFromSnapshot files (sm ds, r3) = (s1, r4, None) ->
        reader_ValidatePayload header r4 = (r5, Panicked msg) ->
        reader_Close r5 = (r6, ec) ->
        RecoverFromSnapshot fp files ds
        = (set_sm s1 (set_manager (SessionManager.mk l) ds),
           [ReaderOpen fp; ReaderGetHeader; ReaderValidateHeader; SessionsLoad;
            SmRecoverFromSnapshot; ReaderValidatePayload; ReaderClose],
           Panicked msg)).
Proof.
  intros Ho Hh. split.
  - intros r2 r3 ec Hv Hc. recover_unfold'. rewrite Ho. simpl.
    rewrite Hh. simpl. rewrite Hv. simpl. rewrite Hc.
    destruct ds as [s o m]. reflexivity.
  - intros r2 r3 r4 r5 r6 l s1 ec Hv Hl Hr Hp Hc. recover_unfold'.
    rewrite Ho. simpl. rewrite Hh. simpl. rewrite Hv. simpl. rewrite Hl. simpl.
    rewrite Hr. simpl. rewrite Hp. simpl. rewrite Hc. reflexivity.
Qed.

(** X18.  [RecoverFromSnapshot] handles the reader it opens and no other:
    when the reader cannot be opened, the error is returned, nothing is
    closed and nothing is restored; when it is opened, [Close] is called
    exactly once, as the last call, on every path (return or panic), and a
    returned error is the one a [Close] returned. *)
Theorem RecoverFromSnapshot_reader_lifetime (fp : string)
    (files : list SnapshotFile) (ds : NativeStateMachine.t S)
    (reader : SnapshotReader) :
  (forall e : err,
     NewSnapshotReader fp = (reader, Some e) ->
     RecoverFromSnapshot fp files ds
     = (ds, [ReaderOpen fp], Returned (Some e)))
  /\ (NewSnapshotReader fp = (reader, None) ->
      exists (tr : list call) (r : SnapshotReader),
        calls_of (RecoverFromSnapshot fp files ds) = tr ++ [ReaderClose]
        /\ count_calls is_ReaderClose tr = 0%nat
        /\ forall e, outcome_of (RecoverFromSnapshot fp files ds) = Returned e ->
                     e = snd (reader_Close r)).
Proof.
  split.
  - intros e Ho. unfold RecoverFromSnapshot, bind, emit, ret. simpl.
    rewrite Ho. reflexivity.
  - intros Ho. now apply (RecoverFromSnapshot_closes fp files ds reader).
Qed.
End RecoverMore.

Lemma RecoverFromSnapshot_all_stages_witness :
  @NativeStateMachine.RecoverFromSnapshot MockStore.collaborators
    (RegularStateMachine.t N) MockStore.adapter "close-fails" []
    (MockStore.regular 0 ∅)
  = (MockStore.regular 7 ∅,
     [ReaderOpen "close-fails"; ReaderGetHeader; ReaderValidateHeader;
      SessionsLoad; SmRecoverFromSnapshot; ReaderValidatePayload; ReaderClose],
     Returned (Some (OtherError "close failed"))).
Proof.
  refine (@RecoverFromSnapshot_all_stages MockStore.collaborators
            (RegularStateMachine.t N) MockStore.adapter "close-fails" []
            (MockStore.regular 0 ∅)
            (MockStore.mkReader false false true false)
            (MockStore.mkReader false false true false)
            (MockStore.mkReader false false true false)
            (MockStore.mkReader false false true false)
            (MockStore.mkReader false false true false)
            (MockStore.mkReader false false true false)
            (MockStore.mkReader false false true true)
            tt ∅ (RegularStateMachine.mk 7)
            (Some (OtherError "close failed")) _ _ _ _ _ _ _);
    reflexivity.
Defined.

Lemma RecoverFromSnapshot_validation_panics_witness :
  @NativeStateMachine.RecoverFromSnapshot MockStore.collaborators
    (RegularStateMachine.t N) MockStore.adapter "invalid-payload" []
    (MockStore.regular 0 ∅)
  = (MockStore.regular 7 ∅,
     [ReaderOpen "invalid-payload"; ReaderGetHeader; ReaderValidateHeader;
      SessionsLoad; SmRecoverFromSnapshot; ReaderValidatePayload; ReaderClose],
     Panicked "corrupted snapshot payload")
  /\ @NativeStateMachine.RecoverFromSnapshot MockStore.collaborators
       (RegularStateMachine.t N) MockStore.adapter "invalid-header" []
       (MockStore.regular 0 ∅)
     = (MockStore.regular 0 ∅,
        [ReaderOpen "invalid-header"; ReaderGetHeader; ReaderValidateHeader;
         ReaderClose],
        Panicked "invalid snapshot header").
Proof.
  split.
  - refine (proj2 (@RecoverFromSnapshot_validation_panics
              MockStore.collaborators (RegularStateMachine.t N)
              MockStore.adapter "invalid-payload" [] (MockStore.regular 0 ∅)
              (MockStore.mkReader false true false false)
              (MockStore.mkReader false true false false) tt
              "corrupted snapshot payload" _ _)
              (MockStore.mkReader false true false false)
              (MockStore.mkReader false true false false)
              (MockStore.mkReader false true false false)
              (MockStore.mkReader false true false false)
              (MockStore.mkReader false true false true)
              ∅ (RegularStateMachine.mk 7) None _ _ _ _ _);
      reflexivity.
  - refine (proj1 (@RecoverFromSnapshot_validation_panics
              MockStore.collaborators (RegularStateMachine.t N)
              MockStore.adapter "invalid-header" [] (MockStore.regular 0 ∅)
              (MockStore.mkReader true false false false)
              (MockStore.mkReader true false false false) tt
              "invalid snapshot header" _ _)
              (MockStore.mkReader true false false false)
              (MockStore.mkReader true false false true) None _ _);
      reflexivity.
Defined.

Lemma RecoverFromSnapshot_reader_lifetime_witness :
  NativeStateMachine.RecoverFromSnapshot "" [] (Mock.regular 0)
  = (Mock.regular 0, [ReaderOpen ""],
     Returned (Some (OtherError "no such file"))).
Proof.
  refine (proj1 (RecoverFromSnapshot_reader_lifetime
            (S := RegularStateMachine.t Mock.counter) "" [] (Mock.regular 0)
            (Mock.mkReader false false false false))
            (OtherError "no such file") _).
  reflexivity.
Defined.

(** * Session manager: client registration *)

Section ClientFacts.
Context `{Collaborators} `{!SessionStore}.

Lemma RegisterClientID_unknown (clientID : N) (m : SessionManager.t)
    (l1 : lrusession) (es : option Session) :
  lrusession_getSession clientID (SessionManager.sessions m)
  = (l1, (es, false)) ->
  RegisterClientID clientID m
  = (SessionManager.mk
       (lrusession_addSession clientID (newSession clientID) l1),
     [], Returned clientID).
Proof.
  intros Hg. unfold RegisterClientID, on_sessions, bind, total, ret.
  rewrite Hg. reflexivity.
Qed.

Lemma RegisterClientID_known (clientID : N) (m : SessionManager.t)
    (l1 : lrusession) (s : Session) :
  lrusession_getSession clientID (SessionManager.sessions m)
  = (l1, (Some s, true)) ->
  ClientID s = clientID ->
  RegisterClientID clientID m = (SessionManager.mk l1, [], Returned 0).
Proof.
  intros Hg Hid. unfold RegisterClientID, on_sessions, checkClientID, bind,
    total, ret. rewrite Hg. simpl. now rewrite Hid, N.eqb_refl.
Qed.

Lemma UnregisterClientID_unknown (clientID : N) (m : SessionManager.t)
    (l1 : lrusession) (es : option Session) :
  lrusession_getSession clientID (SessionManager.sessions m)
  = (l1, (es, false)) ->
  UnregisterClientID clientID m = (SessionManager.mk l1, [], Returned 0).
Proof.
  intros Hg. unfold UnregisterClientID, on_sessions, bind, total, ret.
  rewrite Hg. reflexivity.
Qed.

Lemma UnregisterClientID_known (clientID : N) (m : SessionManager.t)
    (l1 : lrusession) (s : Session) :
  lrusession_getSession clientID (SessionManager.sessions m)
  = (l1, (Some s, true)) ->
  ClientID s = clientID ->
  UnregisterClientID clientID m
  = (SessionManager.mk (lrusession_delSession clientID l1), [],
     Returned clientID).
Proof.
  intros Hg Hid. unfold UnregisterClientID, on_sessions, checkClientID, bind,
    total, ret. rewrite Hg. simpl. now rewrite Hid, N.eqb_refl.
Qed.

Lemma ClientRegistered_known (clientID : N) (m : SessionManager.t)
    (l1 : lrusession) (s : Session) :
  lrusession_getSession clientID (SessionManager.sessions m)
  = (l1, (Some s, true)) ->
  ClientID s = clientID ->
  ClientRegistered clientID m
  = (SessionManager.mk l1, [], Returned (Some s, true)).
Proof.
  intros Hg Hid. unfold ClientRegistered, on_sessions, checkClientID, bind,
    total, ret. rewrite Hg. simpl. now rewrite Hid, N.eqb_refl.
Qed.

(** X19.  On a session store that finds a session it was just given, and
    with [newSession] making a session of the client ID asked for:
    registering a client the store does not know returns the client ID;
    after it, registering the same client again returns 0 and adds
    nothing, [ClientRegistered] finds the new session, and unregistering
    returns the client ID. *)
Theorem register_then (clientID : N) (m : SessionManager.t) :
  (forall id : N, ClientID (newSession id) = id) ->
  (forall (id : N) (s : Session) (l : lrusession),
     snd (lrusession_getSession id (lrusession_addSession id s l))
     = (Some s, true)) ->
  snd (snd (lrusession_getSession clientID (SessionManager.sessions m)))
  = false ->
  let m1 := state_of (RegisterClientID clientID m) in
  outcome_of (RegisterClientID clientID m) = Returned clientID
  /\ RegisterClientID clientID m1
     = (SessionManager.mk
          (fst (lrusession_getSession clientID (SessionManager.sessions m1))),
        [], Returned 0)
  /\ outcome_of (ClientRegistered clientID m1)
     = Returned (Some (newSession clientID), true)
  /\ outcome_of (UnregisterClientID clientID m1) = Returned clientID.
Proof.
  intros Hnew Hfind Hunknown m1.
  destruct (lrusession_getSession clientID (SessionManager.sessions m))
    as [l1 [es ok]] eqn:Hg.
  simpl in Hunknown. subst ok.
  assert (Hm1 : m1 = SessionManager.mk
                  (lrusession_addSession clientID (newSession clientID) l1)).
  { unfold m1. now rewrite (RegisterClientID_unknown _ _ _ _ Hg). }
  split; [now rewrite (RegisterClientID_unknown _ _ _ _ Hg)|].
  specialize (Hfind clientID (newSession clientID) l1).
  rewrite Hm1. simpl.
  destruct (lrusession_getSession clientID
              (lrusession_addSession clientID (newSession clientID) l1))
    as [l2 r] eqn:Hg2.
  simpl in Hfind. subst r. simpl.
  split; [|split].
  - now rewrite (RegisterClientID_known clientID _ l2 (newSession clientID)).
  - now rewrite (ClientRegistered_known clientID _ l2 (newSession clientID)).
  - now rewrite (UnregisterClientID_known clientID _ l2 (newSession clientID)).
Qed.

(** X20.  On a session store that no longer finds a session it was told to
    delete: unregistering a client the store knows returns the client ID;
    after it, unregistering the same client again returns 0, and
    registering it again returns the client ID. *)
Theorem unregister_then (clientID : N) (m : SessionManager.t)
    (l1 : lrusession) (s : Session) :
  (forall (id : N) (l : lrusession),
     snd (snd (lrusession_getSession id (lrusession_delSession id l)))
     = false) ->
  lrusession_getSession clientID (SessionManager.sessions m)
  = (l1, (Some s, true)) ->
  ClientID s = clientID ->
  let m1 := state_of (UnregisterClientID clientID m) in
  UnregisterClientID clientID m
  = (SessionManager.mk (lrusession_delSession clientID l1), [],
     Returned clientID)
  /\ outcome_of (UnregisterClientID clientID m1) = Returned 0
  /\ outcome_of (RegisterClientID clientID m1) = Returned clientID.
Proof.
  intros Hgone Hg Hid m1.
  pose proof (UnregisterClientID_known _ _ _ _ Hg Hid) as Hu.
  split; [exact Hu|].
  assert (Hm1 : m1 = SessionManager.mk (lrusession_delSession clientID l1))
    by (unfold m1; now rewrite Hu).
  specialize (Hgone clientID l1).
  destruct (lrusession_getSession clientID
              (lrusession_delSession clientID l1)) as [l2 [es ok]] eqn:Hg2.
  simpl in Hgone. subst ok. rewrite Hm1. split.
  - now rewrite (UnregisterClientID_unknown clientID _ l2 es).
  - now rewrite (RegisterClientID_unknown clientID _ l2 es).
Qed.

(** X21.  The value 0 that [RegisterClientID] and [UnregisterClientID]
    return for "already registered" and "not registered" is also what
    they return for client ID 0 when they do register or unregister it: a
    session for client 0 is added, or deleted, and 0 is returned. *)
Theorem client_zero_ambiguous (m : SessionManager.t) (l1 : lrusession) :
  (forall es : option Session,
     lrusession_getSession 0 (SessionManager.sessions m) = (l1, (es, false)) ->
     RegisterClientID 0 m
     = (SessionManager.mk (lrusession_addSession 0 (newSession 0) l1), [],
        Returned 0))
  /\ (forall s : Session,
        lrusession_getSession 0 (SessionManager.sessions m)
        = (l1, (Some s, true)) ->
        ClientID s = 0 ->
        UnregisterClientID 0 m
        = (SessionManager.mk (lrusession_delSession 0 l1), [], Returned 0)
        /\ RegisterClientID 0 m = (SessionManager.mk l1, [], Returned 0)).
Proof.
  split.
  - intros es Hg. now apply (RegisterClientID_unknown 0 m l1 es).
  - intros s Hg Hid. split.
    + now apply (UnregisterClientID_known 0 m l1 s).
    + now apply (RegisterClientID_known 0 m l1 s).
Qed.
End ClientFacts.

Lemma register_then_witness :
  outcome_of (@RegisterClientID MockStore.collaborators MockStore.store 7
                (SessionManager.mk (H := MockStore.collaborators) ∅))
  = Returned 7
  /\ outcome_of
       (@RegisterClientID MockStore.collaborators MockStore.store 7
          (state_of (@RegisterClientID MockStore.collaborators MockStore.store 7
                       (SessionManager.mk (H := MockStore.collaborators) ∅))))
     = Returned 0.
Proof.
  assert (Hfind : forall (id : N) (s : Session)
                         (l : @lrusession MockStore.collaborators),
            snd (@lrusession_getSession MockStore.collaborators
                   MockStore.store id
                   (@lrusession_addSession MockStore.collaborators
                      MockStore.store id s l)) = (Some s, true)).
  { intros id s l. simpl. unfold MockStore.getSession.
    now rewrite lookup_insert_eq. }
  assert (Hunknown :
            snd (snd (@lrusession_getSession MockStore.collaborators
                        MockStore.store 7
                        (SessionManager.sessions
                           (SessionManager.mk (H := MockStore.collaborators)
                              ∅)))) = false) by reflexivity.
  destruct (@register_then MockStore.collaborators MockStore.store 7
              (SessionManager.mk (H := MockStore.collaborators) ∅)
              (fun id => eq_refl) Hfind Hunknown) as (H1 & H2 & _).
  split; [exact H1 | now rewrite H2].
Defined.

Lemma unregister_then_witness :
  outcome_of
    (@UnregisterClientID MockStore.collaborators MockStore.store 7
       (state_of
          (@UnregisterClientID MockStore.collaborators MockStore.store 7
             (SessionManager.mk (H := MockStore.collaborators)
                {[ 7 := mkSession 7 0 ∅ ]}))))
  = Returned 0.
Proof.
  assert (Hgone : forall (id : N) (l : @lrusession MockStore.collaborators),
            snd (snd (@lrusession_getSession MockStore.collaborators
                        MockStore.store id
                        (@lrusession_delSession MockStore.collaborators
                           MockStore.store id l))) = false).
  { intros id l. simpl. unfold MockStore.getSession.
    now rewrite lookup_delete_eq. }
  assert (Hg : @lrusession_getSession MockStore.collaborators MockStore.store 7
                 (SessionManager.sessions
                    (SessionManager.mk (H := MockStore.collaborators)
                       {[ 7 := mkSession 7 0 ∅ ]}))
               = ({[ 7 := mkSession 7 0 ∅ ]}, (Some (mkSession 7 0 ∅), true)))
    by reflexivity.
  exact (proj1 (proj2 (@unregister_then MockStore.collaborators MockStore.store
                         7 _ _ _ Hgone Hg eq_refl))).
Defined.

Lemma client_zero_ambiguous_witness :
  @RegisterClientID MockStore.collaborators MockStore.store 0
    (SessionManager.mk (H := MockStore.collaborators) ∅)
  = (SessionManager.mk (H := MockStore.collaborators)
       {[ 0 := mkSession 0 0 ∅ ]}, [], Returned 0).
Proof.
  refine (proj1 (@client_zero_ambiguous MockStore.collaborators MockStore.store
                   (SessionManager.mk (H := MockStore.collaborators) ∅) ∅)
            None _).
  reflexivity.
Defined.
